(** * Atlas Sentinel: risk aggregation, cascade forecast and ingestion cache

    A shallow embedding of the core of the Atlas Sentinel backend:
    - [backend/ml/risk_scorer.py]            (module [RiskScorer]),
    - [backend/ml/time_series_forecaster.py] (module [TimeSeriesForecaster]),
    - [backend/main.py]                      (module [Main]),
    - [backend/data/pipelines/port_traffic_pipeline.py] and
      [backend/data/pipelines/weather_pipeline.py]
      (modules [PortTrafficPipeline], [WeatherPipeline]).

    Modelling conventions.
    - Python [float] values are modelled by exact rationals [Q]: the
      arithmetic is the one the source writes, without rounding, overflow
      or NaN.  Equalities between scores are therefore [Qeq] ([==]).
    - Python [int] counts are [Z]; [count / 10.0] is [inject_Z count / 10].
    - [datetime] values and [timedelta]s are integers, in microseconds.
    - A [dict] whose keys are fixed by the code is a record with one
      [option] field per key the code reads or writes; [d.get(k, v)] is
      [default v (k d)] and [d[k]] raises [KeyError k] on [None].
    - A [dict] used as a finite map (the literal lookup tables, the
      dependency graph, the directory of cache files) is a [gmap].
    - Exceptions are the [Raise] results of the [result] monad. *)

From Stdlib Require Import ZArith QArith Qminmax Qround Lqa Lia.
From stdpp Require Import gmap strings list sorting.

Local Open Scope string_scope.

(** ** Python prelude *)

Module Py.

Inductive exception :=
| KeyError (key : string)
| ZeroDivisionError.

Inductive result (A : Type) :=
| Ok (a : A)
| Raise (e : exception).
Arguments Ok {A} a.
Arguments Raise {A} e.

#[global] Instance result_ret : MRet result := λ A a, Ok a.

#[global] Instance result_bind : MBind result := λ A B k r,
  match r with
  | Ok a => k a
  | Raise e => Raise e
  end.

(** [d[k]] on a record field that may be absent. *)
Definition getitem {A} (key : string) (field : option A) : result A :=
  match field with
  | Some a => Ok a
  | None => Raise (KeyError key)
  end.



(** Comparisons of floats as booleans. *)
Definition Qge_bool (a b : Q) : bool := Qle_bool b a.
Definition Qgt_bool (a b : Q) : bool := negb (Qle_bool a b).

Definition Qlt_bool (a b : Q) : bool := negb (Qle_bool b a).

(** [np.sum] of an array of floats. *)
Definition np_sum (xs : list Q) : Q := foldr Qplus 0%Q xs.

(** [int(x)] of a float: truncation toward zero. *)
Definition int_of_float (x : Q) : Z := Z.quot (Qnum x) (Z.pos (Qden x)).

(** [np.mean] of a non-empty array (the sum divided by the length). *)
Definition mean (xs : list Q) : Q :=
  (foldr Qplus 0 xs / inject_Z (Z.of_nat (length xs)))%Q.

(** [xs[start:]] and [xs[:stop]], with Python's negative indices. *)
Definition slice_from {A} (xs : list A) (start : Z) : list A :=
  let n := Z.of_nat (length xs) in
  let start := if (start <? 0)%Z then Z.max 0 (n + start) else Z.min start n in
  drop (Z.to_nat start) xs.

Definition slice_to {A} (xs : list A) (stop : Z) : list A :=
  let n := Z.of_nat (length xs) in
  let stop := if (stop <? 0)%Z then Z.max 0 (n + stop) else Z.min stop n in
  take (Z.to_nat stop) xs.

(** Rounding to the nearest integer, ties to the even one: how
    [timedelta] turns a float number of microseconds into an integer. *)
Definition round_half_even (x : Q) : Z :=
  let below := Qfloor x in
  match (x - inject_Z below ?= 1 # 2)%Q with
  | Lt => below
  | Gt => (below + 1)%Z
  | Eq => if Z.even below then below else (below + 1)%Z
  end.

(** [timedelta(hours=h)] for a float [h], in microseconds. *)
Definition timedelta_of_hours (h : Q) : Z :=
  round_half_even (h * 3600000000)%Q.

(** A [dict] whose iteration order is observed: the list of its items
    in insertion order.  Assigning to a present key keeps its place. *)
Fixpoint dict_get {V} (d : list (string * V)) (key : string) : option V :=
  match d with
  | [] => None
  | (k, v) :: d' => if String.eqb k key then Some v else dict_get d' key
  end.

Fixpoint dict_set {V} (d : list (string * V)) (key : string) (value : V)
  : list (string * V) :=
  match d with
  | [] => [(key, value)]
  | (k, v) :: d' =>
      if String.eqb k key then (k, value) :: d'
      else (k, v) :: dict_set d' key value
  end.

Definition dict_keys {V} (d : list (string * V)) : list string := map fst d.
Definition dict_values {V} (d : list (string * V)) : list V := map snd d.

End Py.
Import Py.

(** ** Route risk assessments as the cascade functions read them

    Both cascade functions take a list of dicts and read the keys
    ['route_id'], ['total_risk'], ['risk_level'] and (the forecaster only)
    ['predicted_delay_hours']; any of them may be absent. *)

Module RouteRisk.
Record t := {
  route_id : option string;
  total_risk : option Q;
  risk_level : option string;
  predicted_delay_hours : option Q
}.
End RouteRisk.

(** ** backend/ml/risk_scorer.py *)

Module RiskScorer.

(** The [weather_data] dict: keys ['severity'], ['type'],
    ['duration_hours']. *)
Record weather_data := {
  severity : option string;
  type : option string;
  duration_hours : option Q
}.

(** The [sentiment_data] dict. *)
Record sentiment_data := {
  sentiment_score : option Q;
  article_count : option Z;
  urgency_keywords : option Z
}.

(** The [congestion_data] dict. *)
Record congestion_data := {
  congestion_index : option Q;
  wait_time_hours : option Q;
  vessel_count : option Z
}.

(** The [historical_data] dict. *)
Record historical_data := {
  disruption_rate : option Q;
  recent_disruptions : option Z
}.

(** The attributes of a [RiskScorer] instance. *)
Record t := {
  weather_weight : Q;
  sentiment_weight : Q;
  congestion_weight : Q;
  historical_weight : Q;
  high_risk_threshold : Q;
  medium_risk_threshold : Q
}.

(** [RiskScorer.__init__]: the four weights are divided by their sum;
    the only failure is the division by a zero sum. *)
Definition __init__ (weather_weight sentiment_weight congestion_weight
                     historical_weight : Q) : result t :=
  let total := (weather_weight + sentiment_weight + congestion_weight
                + historical_weight)%Q in
  if Qeq_bool total 0 then Raise ZeroDivisionError
  else Ok {| weather_weight := weather_weight / total;
             sentiment_weight := sentiment_weight / total;
             congestion_weight := congestion_weight / total;
             historical_weight := historical_weight / total;
             high_risk_threshold := 0.7;
             medium_risk_threshold := 0.4 |}%Q.

(** [RiskScorer()], with the default arguments of [__init__]. *)
Definition with_defaults : result t := __init__ 0.35 0.30 0.25 0.10.

Definition severity_map : gmap string Q :=
  <["none" := 0.0%Q]> (<["light" := 0.2%Q]> (<["moderate" := 0.5%Q]>
  (<["severe" := 0.8%Q]> (<["extreme" := 1.0%Q]> ∅)))).

Definition type_multipliers : gmap string Q :=
  <["hurricane" := 1.2%Q]> (<["typhoon" := 1.2%Q]> (<["storm" := 1.0%Q]>
  (<["fog" := 0.6%Q]> (<["ice" := 0.8%Q]> (<["wind" := 0.7%Q]> ∅))))).

Definition compute_weather_risk (weather_data : weather_data) : Q :=
  let base_risk :=
    default 0.0%Q (severity_map !! default "none" (severity weather_data)) in
  let multiplier :=
    default 1.0%Q (type_multipliers !! default "storm" (type weather_data)) in
  let duration_hours := default 0%Q (duration_hours weather_data) in
  let duration_factor := Qmin 1.0 (duration_hours / 48.0) in
  let risk := (base_risk * multiplier * (0.7 + 0.3 * duration_factor))%Q in
  Qmin 1.0 risk.

Definition compute_sentiment_risk (sentiment_data : sentiment_data) : Q :=
  let sentiment_score := default 0.0%Q (sentiment_score sentiment_data) in
  let sentiment_risk := ((1.0 - sentiment_score) / 2.0)%Q in
  let article_count := default 0%Z (article_count sentiment_data) in
  let volume_factor := Qmin 1.0 (inject_Z article_count / 10.0) in
  let urgency_count := default 0%Z (urgency_keywords sentiment_data) in
  let urgency_factor := Qmin 1.0 (inject_Z urgency_count / 5.0) in
  let risk :=
    (sentiment_risk * (0.6 + 0.2 * volume_factor + 0.2 * urgency_factor))%Q in
  Qmin 1.0 risk.

Definition compute_congestion_risk (congestion_data : congestion_data) : Q :=
  let congestion_index := default 0.0%Q (congestion_index congestion_data) in
  let wait_hours := default 0%Q (wait_time_hours congestion_data) in
  let wait_factor := Qmin 1.0 (wait_hours / 72.0) in
  let vessel_count := default 0%Z (vessel_count congestion_data) in
  let capacity_factor := Qmin 1.0 (inject_Z vessel_count / 50.0) in
  let risk := (congestion_index * 0.5 + wait_factor * 0.3
               + capacity_factor * 0.2)%Q in
  Qmin 1.0 risk.

Definition compute_historical_risk (route_id : string)
    (historical_data : option historical_data) : Q :=
  match historical_data with
  | None => 0.1%Q
  | Some historical_data =>
      let disruption_rate := default 0.0%Q (disruption_rate historical_data) in
      let recent_disruptions :=
        default 0%Z (recent_disruptions historical_data) in
      let recent_factor := Qmin 1.0 (inject_Z recent_disruptions / 3.0) in
      let risk := (disruption_rate * 0.7 + recent_factor * 0.3)%Q in
      Qmin 1.0 risk
  end.

(** The dict returned by [compute_route_risk]; ['components'] and
    ['weights'] are the two nested dicts. *)
Module Assessment.
Record breakdown := {
  weather : Q;
  sentiment : Q;
  congestion : Q;
  historical : Q
}.

Record t := {
  route_id : string;
  total_risk : Q;
  risk_level : string;
  components : breakdown;
  weights : breakdown;
  timestamp : Z
}.
End Assessment.

(** [now] is the reading of [datetime.now()]. *)
Definition compute_route_risk (self : t) (now : Z) (route_id : string)
    (weather_data : weather_data) (sentiment_data : sentiment_data)
    (congestion_data : congestion_data)
    (historical_data : option historical_data) : Assessment.t :=
  let weather_risk := compute_weather_risk weather_data in
  let sentiment_risk := compute_sentiment_risk sentiment_data in
  let congestion_risk := compute_congestion_risk congestion_data in
  let historical_risk := compute_historical_risk route_id historical_data in
  let total_risk :=
    (weather_risk * weather_weight self
     + sentiment_risk * sentiment_weight self
     + congestion_risk * congestion_weight self
     + historical_risk * historical_weight self)%Q in
  let risk_level :=
    if Qge_bool total_risk (high_risk_threshold self) then "high"
    else if Qge_bool total_risk (medium_risk_threshold self) then "medium"
    else "low" in
  {| Assessment.route_id := route_id;
     Assessment.total_risk := total_risk;
     Assessment.risk_level := risk_level;
     Assessment.components :=
       {| Assessment.weather := weather_risk;
          Assessment.sentiment := sentiment_risk;
          Assessment.congestion := congestion_risk;
          Assessment.historical := historical_risk |};
     Assessment.weights :=
       {| Assessment.weather := weather_weight self;
          Assessment.sentiment := sentiment_weight self;
          Assessment.congestion := congestion_weight self;
          Assessment.historical := historical_weight self |};
     Assessment.timestamp := now |}.

(** An assessment seen through the keys the cascade functions read: the
    dict of [compute_route_risk] has no ['predicted_delay_hours'] key. *)
Definition as_route_risk (a : Assessment.t) : RouteRisk.t :=
  {| RouteRisk.route_id := Some (Assessment.route_id a);
     RouteRisk.total_risk := Some (Assessment.total_risk a);
     RouteRisk.risk_level := Some (Assessment.risk_level a);
     RouteRisk.predicted_delay_hours := None |}.

(** The dicts appended to [results] by [predict_cascading_delays]. *)
Module Delay.
Record t := {
  route_id : string;
  predicted_delay_hours : Q;
  base_delay : Q;
  cascading_delay : Q;
  risk_level : string
}.
End Delay.

(** Truth value of the optional dependency dict: [None] and the empty
    dict are false. *)
Definition graph_truthy (network_graph : option (gmap string (list string)))
  : option (gmap string (list string)) :=
  match network_graph with
  | Some g => if decide (g = ∅) then None else Some g
  | None => None
  end.

(** The body of the [for route_risk in route_risks] loop. *)
Definition predict_route (network_graph : option (gmap string (list string)))
    (route_risk : RouteRisk.t) : result Delay.t :=
  level ← getitem "risk_level" (RouteRisk.risk_level route_risk);
  base_delay_hours ←
    (if String.eqb level "high" then
       total ← getitem "total_risk" (RouteRisk.total_risk route_risk);
       Ok (24 + (total - 0.7) * 100)%Q
     else
       level' ← getitem "risk_level" (RouteRisk.risk_level route_risk);
       if String.eqb level' "medium" then
         total ← getitem "total_risk" (RouteRisk.total_risk route_risk);
         Ok (6 + (total - 0.4) * 30)%Q
       else Ok 0%Q);
  cascading_delay ←
    match graph_truthy network_graph with
    | Some g =>
        route_id ← getitem "route_id" (RouteRisk.route_id route_risk);
        match g !! route_id with
        | Some dependents =>
            Ok (fold_left
                  (λ cascading_delay (dependent_route : string),
                     (cascading_delay + base_delay_hours * 0.3)%Q)
                  dependents 0%Q)
        | None => Ok 0%Q
        end
    | None => Ok 0%Q
    end;
  let total_delay := (base_delay_hours + cascading_delay)%Q in
  route_id ← getitem "route_id" (RouteRisk.route_id route_risk);
  level'' ← getitem "risk_level" (RouteRisk.risk_level route_risk);
  Ok {| Delay.route_id := route_id;
        Delay.predicted_delay_hours := total_delay;
        Delay.base_delay := base_delay_hours;
        Delay.cascading_delay := cascading_delay;
        Delay.risk_level := level'' |}.


End RiskScorer.

(** ** backend/ml/time_series_forecaster.py *)

Module TimeSeriesForecaster.

(** The dicts appended to [results] by [forecast_delay_cascade]. *)
Module Delay.
Record t := {
  route_id : string;
  predicted_delay_hours : Q;
  base_delay : Q;
  cascading_delay : Q;
  risk_level : string;
  confidence : Q
}.
End Delay.

(** [next((r for r in route_risks if r.get('route_id') == dep_route), None)] *)
Definition find_route (route_risks : list RouteRisk.t) (dep_route : string)
  : option RouteRisk.t :=
  List.find (λ r, bool_decide (RouteRisk.route_id r = Some dep_route))
            route_risks.

(** The body of the [for route_risk in route_risks] loop.  A record found
    by [find_route] holds the key ['route_id'], so it is a non-empty dict
    and [if dep_risk:] is the test that the search succeeded. *)
Definition forecast_route (route_risks : list RouteRisk.t)
    (network_dependencies : option (gmap string (list string)))
    (route_risk : RouteRisk.t) : Delay.t :=
  let risk_score := default 0%Q (RouteRisk.total_risk route_risk) in
  let risk_level := default "low" (RouteRisk.risk_level route_risk) in
  let base_delay :=
    (if String.eqb risk_level "high" then 24 + (risk_score - 0.7) * 120
     else if String.eqb risk_level "medium" then 6 + (risk_score - 0.4) * 40
     else risk_score * 10)%Q in
  let cascading_delay :=
    match RiskScorer.graph_truthy network_dependencies with
    | Some g =>
        let route_id := default "" (RouteRisk.route_id route_risk) in
        match g !! route_id with
        | Some dependents =>
            fold_left
              (λ cascading_delay dep_route,
                 match find_route route_risks dep_route with
                 | Some dep_risk =>
                     let dep_base :=
                       default 0%Q (RouteRisk.predicted_delay_hours dep_risk) in
                     (cascading_delay + dep_base * 0.3)%Q
                 | None => cascading_delay
                 end)
              dependents 0%Q
        | None => 0%Q
        end
    | None => 0%Q
    end in
  let total_delay := (base_delay + cascading_delay)%Q in
  {| Delay.route_id := default "" (RouteRisk.route_id route_risk);
     Delay.predicted_delay_hours := total_delay;
     Delay.base_delay := base_delay;
     Delay.cascading_delay := cascading_delay;
     Delay.risk_level := risk_level;
     Delay.confidence := if Qgt_bool risk_score 0.5 then 0.7%Q else 0.5%Q |}.


(** The attributes of a [TimeSeriesForecaster] that the series functions
    read; [window_size] is 24 by default. *)
Record t := {
  window_size : Z
}.

Definition __init__ (window_size : Z) : t := {| window_size := window_size |}.


(** [_calculate_trend]: the least-squares slope of the last [n_points]
    readings against their positions, divided by their number. *)
Definition _calculate_trend (self : t) (series : list Q) : Q :=
  if (Z.of_nat (length series) <? 2)%Z then 0.0%Q
  else
    let n_points := Z.min (window_size self) (Z.of_nat (length series)) in
    let recent := slice_from series (- n_points) in
    let x := map (λ i, inject_Z (Z.of_nat i)) (seq 0 (length recent)) in
    let x_mean := mean x in
    let y_mean := mean recent in
    let numerator :=
      np_sum (zip_with (λ xi yi, (xi - x_mean) * (yi - y_mean))%Q x recent) in
    let denominator :=
      np_sum (map (λ xi, (xi - x_mean) * (xi - x_mean))%Q x) in
    if Qeq_bool denominator 0 then 0.0%Q
    else
      let slope := (numerator / denominator)%Q in
      (slope / inject_Z (Z.of_nat (length recent)))%Q.

End TimeSeriesForecaster.


(** ** backend/ml/congestion_analyzer.py *)

Module CongestionAnalyzer.

Record t := {
  window_hours : Z
}.

Definition __init__ (window_hours : Z) : t := {| window_hours := window_hours |}.

(** [compute_congestion_index]; [historical_avg] is [None] by default and
    [if historical_avg:] is false on [None] and on [0.0]. *)
Definition compute_congestion_index (current_vessels capacity
    wait_time_hours : Q) (historical_avg : option Q) : Q :=
  let capacity_util :=
    if Qgt_bool capacity 0 then Qmin 1.0 (current_vessels / capacity)
    else 0.0%Q in
  let wait_factor := Qmin 1.0 (wait_time_hours / 72.0) in
  let historical_factor :=
    match historical_avg with
    | Some historical_avg =>
        if Qeq_bool historical_avg 0 then 0.5%Q
        else
          let deviation :=
            ((wait_time_hours - historical_avg) / Qmax historical_avg 1.0)%Q in
          Qmin 1.0 (Qmax 0.0 (0.5 + deviation * 0.5))
    | None => 0.5%Q
    end in
  let congestion_index :=
    (capacity_util * 0.4 + wait_factor * 0.4 + historical_factor * 0.2)%Q in
  Qmin 1.0 (Qmax 0.0 congestion_index).

(** The [current_metrics] dict of [predict_congestion], through the keys
    it reads. *)
Module Metrics.
Record t := {
  vessel_count : option Z;
  wait_time_hours : option Q;
  capacity : option Z
}.
End Metrics.

(** The dict returned by [predict_congestion]. *)
Module Projection.
Record t := {
  projected_congestion_index : Q;
  projected_vessel_count : Z;
  projected_wait_hours : Q;
  hours_ahead : Z;
  timestamp : Z
}.
End Projection.

Definition predict_congestion (now : Z) (current_metrics : Metrics.t)
    (incoming_vessels : Z) (processing_rate : Q) : result Projection.t :=
  current_vessels ←
    getitem "vessel_count" (Metrics.vessel_count current_metrics);
  current_wait ←
    getitem "wait_time_hours" (Metrics.wait_time_hours current_metrics);
  let hours_ahead := 24%Z in
  let total_incoming := (current_vessels + incoming_vessels)%Z in
  let total_processed := (processing_rate * inject_Z hours_ahead)%Q in
  let projected_vessels := Qmax 0 (inject_Z total_incoming - total_processed) in
  let projected_wait :=
    if Qgt_bool processing_rate 0 then (projected_vessels / processing_rate)%Q
    else (current_wait + inject_Z hours_ahead)%Q in
  let capacity := default 100%Z (Metrics.capacity current_metrics) in
  let projected_index :=
    compute_congestion_index projected_vessels (inject_Z capacity)
      projected_wait (Some current_wait) in
  Ok {| Projection.projected_congestion_index := projected_index;
        Projection.projected_vessel_count := int_of_float projected_vessels;
        Projection.projected_wait_hours := projected_wait;
        Projection.hours_ahead := hours_ahead;
        Projection.timestamp := now |}.

End CongestionAnalyzer.

(** ** backend/main.py: the bottleneck merge of the two endpoint weathers *)

Module Main.

Definition severity_map : gmap string Z :=
  <["none" := 0%Z]> (<["light" := 1%Z]> (<["moderate" := 2%Z]>
  (<["severe" := 3%Z]> (<["extreme" := 4%Z]> ∅)))).

Definition _weather_severity_value (severity : string) : Z :=
  default 0%Z (severity_map !! severity).

(** The [worst_weather] selection of [get_routes] and [get_route_details];
    either endpoint may be the empty dict [{}], on which ['severity'] is
    a [KeyError]. *)
Definition worst_weather (origin_weather dest_weather : RiskScorer.weather_data)
  : result RiskScorer.weather_data :=
  origin_severity ← getitem "severity" (RiskScorer.severity origin_weather);
  dest_severity ← getitem "severity" (RiskScorer.severity dest_weather);
  Ok (if (_weather_severity_value origin_severity
          >=? _weather_severity_value dest_severity)%Z
      then origin_weather else dest_weather).

End Main.

(** ** backend/data/data_simulator.py: the static tables

    The random generators are not modelled; the pipelines below take the
    dicts they return as arguments. *)

Module DataSimulator.

Module Port.
Record t := {
  id : string;
  name : string;
  country : string;
  lat : Q;
  lon : Q;
  region : string
}.
End Port.

Definition ports : list Port.t :=
  [ {| Port.id := "LAX"; Port.name := "Los Angeles"; Port.country := "USA";
       Port.lat := 33.75; Port.lon := -118.25;
       Port.region := "North America" |};
    {| Port.id := "NYC"; Port.name := "New York"; Port.country := "USA";
       Port.lat := 40.68; Port.lon := -74.04;
       Port.region := "North America" |};
    {| Port.id := "SHG"; Port.name := "Shanghai"; Port.country := "China";
       Port.lat := 31.23; Port.lon := 121.47; Port.region := "Asia" |};
    {| Port.id := "SGP"; Port.name := "Singapore"; Port.country := "Singapore";
       Port.lat := 1.29; Port.lon := 103.85; Port.region := "Asia" |};
    {| Port.id := "RTM"; Port.name := "Rotterdam";
       Port.country := "Netherlands";
       Port.lat := 51.92; Port.lon := 4.48; Port.region := "Europe" |};
    {| Port.id := "HAM"; Port.name := "Hamburg"; Port.country := "Germany";
       Port.lat := 53.55; Port.lon := 9.99; Port.region := "Europe" |};
    {| Port.id := "DXB"; Port.name := "Dubai"; Port.country := "UAE";
       Port.lat := 25.27; Port.lon := 55.30; Port.region := "Middle East" |};
    {| Port.id := "HKG"; Port.name := "Hong Kong"; Port.country := "China";
       Port.lat := 22.32; Port.lon := 114.17; Port.region := "Asia" |};
    {| Port.id := "LON"; Port.name := "London"; Port.country := "UK";
       Port.lat := 51.51; Port.lon := -0.13; Port.region := "Europe" |};
    {| Port.id := "TOK"; Port.name := "Tokyo"; Port.country := "Japan";
       Port.lat := 35.68; Port.lon := 139.77; Port.region := "Asia" |} ]%Q.

(** The keys of [weather_zones], in insertion order, with their types. *)
Definition weather_zones : list (string * list string) :=
  [ ("North America", ["storm"; "hurricane"; "fog"]);
    ("Asia", ["typhoon"; "storm"; "fog"]);
    ("Europe", ["storm"; "wind"; "ice"]);
    ("Middle East", ["wind"; "storm"]) ].

Module Route.
Record t := {
  route_id : string;
  origin : string;
  destination : string;
  name : string;
  distance_km : Q;
  typical_duration_hours : Q
}.
End Route.

Section Routes.

(** The haversine distance of [_calculate_distance] is trigonometric; the
    route table is built over any such function of the four coordinates. *)
Variable _calculate_distance : Q → Q → Q → Q → Q.

Definition make_route (origin dest : Port.t) : Route.t :=
  let distance :=
    _calculate_distance (Port.lat origin) (Port.lon origin)
                        (Port.lat dest) (Port.lon dest) in
  {| Route.route_id := Port.id origin ++ "-" ++ Port.id dest;
     Route.origin := Port.id origin;
     Route.destination := Port.id dest;
     Route.name := Port.name origin ++ " → " ++ Port.name dest;
     Route.distance_km := distance;
     Route.typical_duration_hours := (distance / 25.0)%Q |}.

(** [for i, origin in enumerate(ports): for dest in ports[i+1:]: ...] *)
Fixpoint routes_from (ports : list Port.t) : list Route.t :=
  match ports with
  | [] => []
  | origin :: rest => (map (make_route origin) rest ++ routes_from rest)%list
  end.

Definition routes : list Route.t := routes_from ports.

End Routes.

End DataSimulator.

(** ** backend/data/pipelines/port_traffic_pipeline.py

    The directory of the pipeline is a pair of finite maps indexed by the
    port identifier: [cache_files] stands for the files
    [{port_id}_traffic.json] and [history_files] for
    [{port_id}_history.json]. *)

Module PortTrafficPipeline.

(** The dict of [DataSimulator.generate_port_traffic], with the two keys
    that [ingest_port_traffic] adds; the simulator returns [{}] for an
    unknown port. *)
Module Traffic.
Record t := {
  port_id : option string;
  port_name : option string;
  vessel_count : option Z;
  capacity : option Z;
  wait_time_hours : option Q;
  congestion_index : option Q;
  timestamp : option Z;
  latitude : option Q;
  longitude : option Q;
  previous_vessel_count : option Z;
  trend : option string
}.
Definition empty_dict : t :=
  {| port_id := None; port_name := None; vessel_count := None;
     capacity := None; wait_time_hours := None; congestion_index := None;
     timestamp := None; latitude := None; longitude := None;
     previous_vessel_count := None; trend := None |}.
End Traffic.

(** The JSON object of a cache file. *)
Module Cache.
Record t := {
  timestamp : option Z;
  data : option Traffic.t
}.
Definition truthy (cache_data : t) : bool :=
  bool_decide (is_Some (timestamp cache_data))
  || bool_decide (is_Some (data cache_data)).
End Cache.

(** A cache file on disk: one that [json.load] rejects, or a JSON object. *)
Inductive cache_file :=
| Corrupt
| Stored (cache_data : Cache.t).

(** One entry of a history file. *)
Module History.
Record entry := {
  timestamp : Z;
  vessel_count : Z;
  wait_time_hours : Q;
  congestion_index : Q
}.
End History.

Record files := {
  cache_files : gmap string cache_file;
  history_files : gmap string (list History.entry)
}.

Record t := {
  cache_duration : Z
}.

Definition minutes (n : Z) : Z := (n * 60 * 1000000)%Z.
Definition days (n : Z) : Z := (n * 24 * 60 * 60 * 1000000)%Z.

Definition __init__ : t := {| cache_duration := minutes 5 |}.

Definition _save_cache (fs : files) (now : Z) (port_id : string)
    (data : Traffic.t) : files :=
  let cache_data := {| Cache.timestamp := Some now; Cache.data := Some data |} in
  {| cache_files := <[port_id := Stored cache_data]> (cache_files fs);
     history_files := history_files fs |}.

Definition _load_cache (fs : files) (port_id : string) : option Cache.t :=
  match cache_files fs !! port_id with
  | Some (Stored cache_data) => Some cache_data
  | Some Corrupt => None
  | None => None
  end.

Definition _is_cache_valid (self : t) (now : Z) (cache_data : Cache.t) : bool :=
  match Cache.timestamp cache_data with
  | None => false
  | Some cache_time => (now - cache_time <? cache_duration self)%Z
  end.

(** The "Check cache" block of [ingest_port_traffic]: [Some r] when the
    function returns from it. *)
Definition check_cache (self : t) (fs : files) (now : Z) (port_id : string)
    (force_refresh : bool) : option (result Traffic.t) :=
  if negb force_refresh && bool_decide (is_Some (cache_files fs !! port_id))
  then
    match _load_cache fs port_id with
    | Some cache_data =>
        if Cache.truthy cache_data && _is_cache_valid self now cache_data
        then Some (getitem "data" (Cache.data cache_data))
        else None
    | None => None
    end
  else None.

(** The "Add historical context" block: the generated dict, with the two
    keys derived from the previous cache file when there is one. *)
Definition add_historical_context (fs : files) (port_id : string)
    (traffic_data : Traffic.t) : result Traffic.t :=
  if bool_decide (is_Some (cache_files fs !! port_id)) then
    match _load_cache fs port_id with
    | Some previous_data =>
        if Cache.truthy previous_data then
          previous ← getitem "data" (Cache.data previous_data);
          let previous_count := default 0%Z (Traffic.vessel_count previous) in
          new_count ← getitem "vessel_count" (Traffic.vessel_count traffic_data);
          Ok {| Traffic.port_id := Traffic.port_id traffic_data;
                Traffic.port_name := Traffic.port_name traffic_data;
                Traffic.vessel_count := Traffic.vessel_count traffic_data;
                Traffic.capacity := Traffic.capacity traffic_data;
                Traffic.wait_time_hours := Traffic.wait_time_hours traffic_data;
                Traffic.congestion_index := Traffic.congestion_index traffic_data;
                Traffic.timestamp := Traffic.timestamp traffic_data;
                Traffic.latitude := Traffic.latitude traffic_data;
                Traffic.longitude := Traffic.longitude traffic_data;
                Traffic.previous_vessel_count := Some previous_count;
                Traffic.trend := Some (if (new_count >? previous_count)%Z
                               then "increasing" else "decreasing") |}
        else Ok traffic_data
    | None => Ok traffic_data
    end
  else Ok traffic_data.

(** [ingest_port_traffic]: [now] is the reading of the clock and
    [generated] the dict that [self.simulator.generate_port_traffic(port_id)]
    returns when it is called.  The result is the returned value (or the
    exception) and the directory after the call. *)
Definition ingest_port_traffic (self : t) (fs : files) (now : Z)
    (generated : Traffic.t) (port_id : string) (force_refresh : bool)
  : result Traffic.t * files :=
  match check_cache self fs now port_id force_refresh with
  | Some cached => (cached, fs)
  | None =>
      match add_historical_context fs port_id generated with
      | Ok traffic_data => (Ok traffic_data, _save_cache fs now port_id traffic_data)
      | Raise e => (Raise e, fs)
      end
  end.

(** [update_port_history]; a history file, when present, holds the JSON
    list that this function wrote. *)
Definition update_port_history (fs : files) (now : Z) (port_id : string)
    (traffic_data : Traffic.t) : files :=
  let history := default [] (history_files fs !! port_id) in
  let history :=
    (history ++ [ {| History.timestamp := default now (Traffic.timestamp traffic_data);
                    History.vessel_count := default 0%Z (Traffic.vessel_count traffic_data);
                    History.wait_time_hours :=
                      default 0%Q (Traffic.wait_time_hours traffic_data);
                    History.congestion_index :=
                      default 0%Q (Traffic.congestion_index traffic_data) |} ])%list in
  let cutoff_time := (now - days 7)%Z in
  let history :=
    filter (λ entry, (History.timestamp entry >= cutoff_time)%Z) history in
  {| cache_files := cache_files fs;
     history_files := <[port_id := history]> (history_files fs) |}.

Definition timedelta_hours (n : Z) : Z := (n * 60 * 60 * 1000000)%Z.

(** [get_port_history]; [hours] is 24 by default. *)
Definition get_port_history (fs : files) (now : Z) (port_id : string)
    (hours : Z) : list History.entry :=
  match history_files fs !! port_id with
  | Some history =>
      let cutoff_time := (now - timedelta_hours hours)%Z in
      filter (λ entry, (History.timestamp entry >= cutoff_time)%Z) history
  | None => []
  end.

(** The loop of [ingest_all_ports] over the port identifiers; [generate]
    is what the simulator returns for each port, and an exception leaves
    the loop with the files written so far. *)
Fixpoint ingest_ports (self : t) (fs : files) (now : Z)
    (generate : string → Traffic.t) (port_ids : list string)
  : result (list Traffic.t) * files :=
  match port_ids with
  | [] => (Ok [], fs)
  | port_id :: rest =>
      match ingest_port_traffic self fs now (generate port_id) port_id false
      with
      | (Ok traffic, fs') =>
          match ingest_ports self fs' now generate rest with
          | (Ok all_traffic, fs'') => (Ok (traffic :: all_traffic), fs'')
          | (Raise e, fs'') => (Raise e, fs'')
          end
      | (Raise e, fs') => (Raise e, fs')
      end
  end.

Definition ingest_all_ports (self : t) (fs : files) (now : Z)
    (generate : string → Traffic.t) : result (list Traffic.t) * files :=
  ingest_ports self fs now generate
    (map DataSimulator.Port.id DataSimulator.ports).

End PortTrafficPipeline.

(** ** backend/data/pipelines/weather_pipeline.py *)

Module WeatherPipeline.

(** The JSON object of a cache file; the alerts are the dicts that the
    risk scorer reads as [weather_data]. *)
Module Cache.
Record t := {
  timestamp : option Z;
  data : option (list RiskScorer.weather_data)
}.
End Cache.

Record t := {
  cache_duration : Z
}.

Definition __init__ : t := {| cache_duration := PortTrafficPipeline.minutes 10 |}.

Definition _is_cache_valid (self : t) (now : Z) (cache_data : Cache.t) : bool :=
  match Cache.timestamp cache_data with
  | None => false
  | Some cache_time => (now - cache_time <? cache_duration self)%Z
  end.

(** An alert dict, as the simulator generates it. *)
Module Alert.
Record t := {
  weather_zone : option string;
  type : option string;
  severity : option string;
  duration_hours : option Q;
  affected_port_id : option string;
  affected_port_name : option string;
  latitude : option Q;
  longitude : option Q;
  timestamp : option Z
}.

(** The alert as the risk scorer reads it. *)
Definition weather_data (alert : t) : RiskScorer.weather_data :=
  {| RiskScorer.severity := severity alert;
     RiskScorer.type := type alert;
     RiskScorer.duration_hours := duration_hours alert |}.
End Alert.

(** The JSON object of a cache file, with the alerts in full. *)
Module AlertCache.
Record t := {
  timestamp : option Z;
  data : option (list Alert.t)
}.

Definition truthy (cache_data : t) : bool :=
  bool_decide (is_Some (timestamp cache_data))
  || bool_decide (is_Some (data cache_data)).

Definition as_cache (cache_data : t) : Cache.t :=
  {| Cache.timestamp := timestamp cache_data;
     Cache.data := map Alert.weather_data <$> data cache_data |}.
End AlertCache.

Inductive cache_file :=
| Corrupt
| Stored (cache_data : AlertCache.t).

(** The directory of the pipeline: [cache_files] stands for the files
    [{region}_alerts.json] and [all_alerts.json], indexed by [region] or
    by ["all"]; [alert_files] for the files
    [alerts/{weather_zone}_{timestamp}.json], indexed by the pair. *)
Record files := {
  cache_files : gmap string cache_file;
  alert_files : gmap (string * Z) Alert.t
}.

Definition _save_cache (fs : files) (now : Z) (cache_key : string)
    (data : list Alert.t) : files :=
  let cache_data :=
    {| AlertCache.timestamp := Some now; AlertCache.data := Some data |} in
  {| cache_files := <[cache_key := Stored cache_data]> (cache_files fs);
     alert_files := alert_files fs |}.

Definition _load_cache (fs : files) (cache_key : string)
  : option AlertCache.t :=
  match cache_files fs !! cache_key with
  | Some (Stored cache_data) => Some cache_data
  | Some Corrupt => None
  | None => None
  end.

Definition _store_alert (fs : files) (alert : Alert.t) : result files :=
  weather_zone ← getitem "weather_zone" (Alert.weather_zone alert);
  timestamp ← getitem "timestamp" (Alert.timestamp alert);
  Ok {| cache_files := cache_files fs;
        alert_files := <[(weather_zone, timestamp) := alert]> (alert_files fs) |}.

(** [for alert in alerts: self._store_alert(alert)]; an exception leaves
    the loop with the files written so far. *)
Fixpoint store_alerts (fs : files) (alerts : list Alert.t)
  : result unit * files :=
  match alerts with
  | [] => (Ok (), fs)
  | alert :: rest =>
      match _store_alert fs alert with
      | Ok fs' => store_alerts fs' rest
      | Raise e => (Raise e, fs)
      end
  end.

(** The cache file and the regions that a call is about: [if region:] is
    false on [None] and on the empty string. *)
Definition cache_key (region : option string) : string :=
  match region with
  | Some region => if String.eqb region "" then "all" else region
  | None => "all"
  end.

Definition regions_of (region : option string) : list string :=
  match region with
  | Some region =>
      if String.eqb region "" then map fst DataSimulator.weather_zones
      else [region]
  | None => map fst DataSimulator.weather_zones
  end.

(** The "Check cache" block of [ingest_weather_alerts]. *)
Definition check_cache (self : t) (fs : files) (now : Z) (cache_key : string)
    (force_refresh : bool) : option (result (list Alert.t)) :=
  if negb force_refresh && bool_decide (is_Some (cache_files fs !! cache_key))
  then
    match _load_cache fs cache_key with
    | Some cache_data =>
        if AlertCache.truthy cache_data
           && _is_cache_valid self now (AlertCache.as_cache cache_data)
        then Some (getitem "data" (AlertCache.data cache_data))
        else None
    | None => None
    end
  else None.

(** [ingest_weather_alerts]: [generate region] is what
    [self.simulator.generate_weather_alert(region)] returns during the
    call. *)
Definition ingest_weather_alerts (self : t) (fs : files) (now : Z)
    (generate : string → Alert.t) (region : option string)
    (force_refresh : bool) : result (list Alert.t) * files :=
  match check_cache self fs now (cache_key region) force_refresh with
  | Some cached => (cached, fs)
  | None =>
      let alerts := map generate (regions_of region) in
      let fs := _save_cache fs now (cache_key region) alerts in
      match store_alerts fs alerts with
      | (Ok _, fs) => (Ok alerts, fs)
      | (Raise e, fs) => (Raise e, fs)
      end
  end.

Definition severity_levels : gmap string Z :=
  <["light" := 1%Z]> (<["moderate" := 2%Z]> (<["severe" := 3%Z]>
  (<["extreme" := 4%Z]> ∅))).

(** The loop of [get_active_alerts] over the ingested alerts. *)
Fixpoint active_alerts (now : Z) (threshold_level : Z)
    (all_alerts : list Alert.t) : result (list Alert.t) :=
  match all_alerts with
  | [] => Ok []
  | alert :: rest =>
      severity ← getitem "severity" (Alert.severity alert);
      let alert_level := default 0%Z (severity_levels !! severity) in
      if (alert_level >=? threshold_level)%Z then
        alert_time ← getitem "timestamp" (Alert.timestamp alert);
        let duration :=
          timedelta_of_hours (default 24%Q (Alert.duration_hours alert)) in
        active ← active_alerts now threshold_level rest;
        Ok (if (now - alert_time <? duration)%Z then alert :: active
            else active)
      else active_alerts now threshold_level rest
  end.

Definition get_active_alerts (self : t) (fs : files) (now : Z)
    (generate : string → Alert.t) (severity_threshold : string)
  : result (list Alert.t) * files :=
  let threshold_level := default 2%Z (severity_levels !! severity_threshold) in
  match ingest_weather_alerts self fs now generate None false with
  | (Ok all_alerts, fs) => (active_alerts now threshold_level all_alerts, fs)
  | (Raise e, fs) => (Raise e, fs)
  end.

(** [max(alerts, key=lambda a: severity_levels.get(a['severity'], 0))]:
    the first alert of the highest level. *)
Fixpoint max_by_severity (best : Alert.t) (best_level : Z)
    (rest : list Alert.t) : result Alert.t :=
  match rest with
  | [] => Ok best
  | alert :: rest =>
      severity ← getitem "severity" (Alert.severity alert);
      let level := default 0%Z (severity_levels !! severity) in
      if (level >? best_level)%Z then max_by_severity alert level rest
      else max_by_severity best best_level rest
  end.

Definition most_severe (alerts : list Alert.t) : result (option Alert.t) :=
  match alerts with
  | [] => Ok None
  | alert :: rest =>
      severity ← getitem "severity" (Alert.severity alert);
      best ← max_by_severity alert (default 0%Z (severity_levels !! severity))
              rest;
      Ok (Some best)
  end.

Definition get_weather_for_port (self : t) (fs : files) (now : Z)
    (generate : string → Alert.t) (port_id : string)
  : result (option Alert.t) * files :=
  match
    List.find (λ p, String.eqb (DataSimulator.Port.id p) port_id)
              DataSimulator.ports
  with
  | None => (Ok None, fs)
  | Some port =>
      let region := DataSimulator.Port.region port in
      match ingest_weather_alerts self fs now generate (Some region) false with
      | (Ok alerts, fs) => (most_severe alerts, fs)
      | (Raise e, fs) => (Raise e, fs)
      end
  end.

End WeatherPipeline.

(** ** backend/data/ontology.py

    The dicts [ports], [routes], [shipments] and [risk_factors] are
    iterated by the code and keep their insertion order; the relationship
    dicts are only read by key and hold sets, whose iteration order Python
    leaves unspecified: a list built from a set is given in the order of
    [elements]. *)

Module Ontology.

Inductive RiskLevel :=
| LOW
| MEDIUM
| HIGH.

Module Port.
Record t := {
  port_id : string;
  name : string;
  country : string;
  latitude : Q;
  longitude : Q;
  capacity : Z;
  current_vessels : Z;
  wait_time_hours : Q;
  congestion_index : Q;
  weather_zone : option string;
  region : option string
}.
End Port.

Module Route.
Record t := {
  route_id : string;
  origin_port_id : string;
  destination_port_id : string;
  name : string;
  distance_km : Q;
  typical_duration_hours : Q;
  risk_score : Q;
  risk_level : RiskLevel;
  active_shipments : Z
}.
End Route.

Module Shipment.
Record t := {
  shipment_id : string;
  route_id : string;
  origin_port_id : string;
  destination_port_id : string;
  status : string;
  current_location : option (list (string * Q));
  estimated_arrival : option Z;
  delay_hours : Q
}.
End Shipment.

Module RiskFactor.
Record t := {
  factor_id : string;
  factor_type : string;
  severity : Q;
  description : string;
  affected_entities : list string;
  start_time : option Z;
  end_time : option Z
}.
End RiskFactor.

(** The attributes of a [SupplyChainOntology]. *)
Record t := {
  ports : list (string * Port.t);
  routes : list (string * Route.t);
  shipments : list (string * Shipment.t);
  risk_factors : list (string * RiskFactor.t);
  port_to_routes : gmap string (gset string);
  route_to_ports : gmap string (gset string);
  port_to_weather_zones : gmap string string;
  port_to_regions : gmap string string;
  weather_zone_to_ports : gmap string (gset string);
  region_to_ports : gmap string (gset string)
}.

Definition __init__ : t :=
  {| ports := []; routes := []; shipments := []; risk_factors := [];
     port_to_routes := ∅; route_to_ports := ∅; port_to_weather_zones := ∅;
     port_to_regions := ∅; weather_zone_to_ports := ∅; region_to_ports := ∅ |}.

(** [if key not in index: index[key] = set()] then [index[key].add(member)] *)
Definition index_add (index : gmap string (gset string)) (key member : string)
  : gmap string (gset string) :=
  <[key := default ∅ (index !! key) ∪ {[member]}]> index.

(** Truth value of an optional string: [None] and [''] are false. *)
Definition truthy_string (s : option string) : option string :=
  match s with
  | Some s => if String.eqb s "" then None else Some s
  | None => None
  end.

Definition add_port (self : t) (port : Port.t) : t :=
  let port_id := Port.port_id port in
  let zones :=
    match truthy_string (Port.weather_zone port) with
    | Some zone =>
        (<[port_id := zone]> (port_to_weather_zones self),
         index_add (weather_zone_to_ports self) zone port_id)
    | None => (port_to_weather_zones self, weather_zone_to_ports self)
    end in
  let regions :=
    match truthy_string (Port.region port) with
    | Some region =>
        (<[port_id := region]> (port_to_regions self),
         index_add (region_to_ports self) region port_id)
    | None => (port_to_regions self, region_to_ports self)
    end in
  {| ports := dict_set (ports self) port_id port;
     routes := routes self;
     shipments := shipments self;
     risk_factors := risk_factors self;
     port_to_routes := port_to_routes self;
     route_to_ports := route_to_ports self;
     port_to_weather_zones := zones.1;
     port_to_regions := regions.1;
     weather_zone_to_ports := zones.2;
     region_to_ports := regions.2 |}.

Definition add_route (self : t) (route : Route.t) : t :=
  let route_id := Route.route_id route in
  let origin := Route.origin_port_id route in
  let destination := Route.destination_port_id route in
  {| ports := ports self;
     routes := dict_set (routes self) route_id route;
     shipments := shipments self;
     risk_factors := risk_factors self;
     port_to_routes :=
       index_add (index_add (port_to_routes self) origin route_id)
                 destination route_id;
     route_to_ports :=
       <[route_id := {[origin; destination]}]> (route_to_ports self);
     port_to_weather_zones := port_to_weather_zones self;
     port_to_regions := port_to_regions self;
     weather_zone_to_ports := weather_zone_to_ports self;
     region_to_ports := region_to_ports self |}.

Definition add_shipment (self : t) (shipment : Shipment.t) : t :=
  {| ports := ports self;
     routes := routes self;
     shipments :=
       dict_set (shipments self) (Shipment.shipment_id shipment) shipment;
     risk_factors := risk_factors self;
     port_to_routes := port_to_routes self;
     route_to_ports := route_to_ports self;
     port_to_weather_zones := port_to_weather_zones self;
     port_to_regions := port_to_regions self;
     weather_zone_to_ports := weather_zone_to_ports self;
     region_to_ports := region_to_ports self |}.

Definition add_risk_factor (self : t) (risk_factor : RiskFactor.t) : t :=
  {| ports := ports self;
     routes := routes self;
     shipments := shipments self;
     risk_factors :=
       dict_set (risk_factors self) (RiskFactor.factor_id risk_factor)
                risk_factor;
     port_to_routes := port_to_routes self;
     route_to_ports := route_to_ports self;
     port_to_weather_zones := port_to_weather_zones self;
     port_to_regions := port_to_regions self;
     weather_zone_to_ports := weather_zone_to_ports self;
     region_to_ports := region_to_ports self |}.

(** [[self.ports[pid] for pid in port_ids if pid in self.ports]] *)
Definition get_ports_by_weather_zone (self : t) (weather_zone : string)
  : list Port.t :=
  let port_ids := default ∅ (weather_zone_to_ports self !! weather_zone) in
  omap (dict_get (ports self)) (elements port_ids).

Definition get_ports_by_region (self : t) (region : string) : list Port.t :=
  let port_ids := default ∅ (region_to_ports self !! region) in
  omap (dict_get (ports self)) (elements port_ids).

Definition get_routes_by_port (self : t) (port_id : string) : list Route.t :=
  let route_ids := default ∅ (port_to_routes self !! port_id) in
  omap (dict_get (routes self)) (elements route_ids).

Definition get_affected_routes (self : t) (risk_factor : RiskFactor.t)
  : list Route.t :=
  omap (dict_get (routes self)) (RiskFactor.affected_entities risk_factor).

(** [update_port_metrics]; the [metrics] dict has the keys of the
    scorer's [congestion_data]. *)
Definition update_port_metrics (self : t) (port_id : string)
    (metrics : RiskScorer.congestion_data) : t :=
  match dict_get (ports self) port_id with
  | Some port =>
      let port :=
        {| Port.port_id := Port.port_id port;
           Port.name := Port.name port;
           Port.country := Port.country port;
           Port.latitude := Port.latitude port;
           Port.longitude := Port.longitude port;
           Port.capacity := Port.capacity port;
           Port.current_vessels :=
             default (Port.current_vessels port)
                     (RiskScorer.vessel_count metrics);
           Port.wait_time_hours :=
             default (Port.wait_time_hours port)
                     (RiskScorer.wait_time_hours metrics);
           Port.congestion_index :=
             default (Port.congestion_index port)
                     (RiskScorer.congestion_index metrics);
           Port.weather_zone := Port.weather_zone port;
           Port.region := Port.region port |} in
      {| ports := dict_set (ports self) port_id port;
         routes := routes self;
         shipments := shipments self;
         risk_factors := risk_factors self;
         port_to_routes := port_to_routes self;
         route_to_ports := route_to_ports self;
         port_to_weather_zones := port_to_weather_zones self;
         port_to_regions := port_to_regions self;
         weather_zone_to_ports := weather_zone_to_ports self;
         region_to_ports := region_to_ports self |}
  | None => self
  end.

Definition update_route_risk (self : t) (route_id : string) (risk_score : Q)
    (risk_level : RiskLevel) : t :=
  match dict_get (routes self) route_id with
  | Some route =>
      let route :=
        {| Route.route_id := Route.route_id route;
           Route.origin_port_id := Route.origin_port_id route;
           Route.destination_port_id := Route.destination_port_id route;
           Route.name := Route.name route;
           Route.distance_km := Route.distance_km route;
           Route.typical_duration_hours := Route.typical_duration_hours route;
           Route.risk_score := risk_score;
           Route.risk_level := risk_level;
           Route.active_shipments := Route.active_shipments route |} in
      {| ports := ports self;
         routes := dict_set (routes self) route_id route;
         shipments := shipments self;
         risk_factors := risk_factors self;
         port_to_routes := port_to_routes self;
         route_to_ports := route_to_ports self;
         port_to_weather_zones := port_to_weather_zones self;
         port_to_regions := port_to_regions self;
         weather_zone_to_ports := weather_zone_to_ports self;
         region_to_ports := region_to_ports self |}
  | None => self
  end.

(** [sorted(all_routes, key=lambda r: r.risk_score, reverse=True)]: the
    sort is stable, so the result is the one list in descending order
    of score in which routes of equal score keep their original order.
    Insertion from the right builds it: each route goes before the first
    route whose score is not strictly greater. *)
Fixpoint insert_by_risk (route : Route.t) (sorted : list Route.t)
  : list Route.t :=
  match sorted with
  | [] => [route]
  | r :: rest =>
      if Qgt_bool (Route.risk_score r) (Route.risk_score route)
      then r :: insert_by_risk route rest
      else route :: r :: rest
  end.

Definition sorted_by_risk (all_routes : list Route.t) : list Route.t :=
  foldr insert_by_risk [] all_routes.

Definition get_top_risk_routes (self : t) (limit : Z) : list Route.t :=
  let all_routes := dict_values (routes self) in
  let sorted_routes := sorted_by_risk all_routes in
  slice_to sorted_routes limit.

End Ontology.

(** ** backend/ml/sentiment_analyzer.py

    The two string operations of the analyzer, [str.lower] and the
    substring test [word in text], are Python built-ins over Unicode
    text; the analyzer is modelled over any two such functions. *)

(** A news article dict, as the simulator generates it. *)
Module Article.
Record t := {
  article_id : option string;
  title : option string;
  content : option string;
  source : option string;
  port_id : option string;
  port_name : option string;
  region : option string;
  sentiment_score : option Q;
  timestamp : option Z
}.
End Article.

Module SentimentAnalyzer.

(** The dict returned by [analyze_text]. *)
Module TextAnalysis.
Record t := {
  sentiment_score : Q;
  label : string;
  confidence : Q
}.
End TextAnalysis.

(** The dict returned by [analyze_articles]; the branch for an empty
    list has no ['individual_scores'] key. *)
Module Analysis.
Record t := {
  sentiment_score : Q;
  article_count : Z;
  urgency_keywords : Z;
  individual_scores : option (list Q);
  timestamp : Z
}.
End Analysis.

(** The analysis as [compute_sentiment_risk] reads it. *)
Definition as_sentiment_data (analysis : Analysis.t) : RiskScorer.sentiment_data :=
  {| RiskScorer.sentiment_score := Some (Analysis.sentiment_score analysis);
     RiskScorer.article_count := Some (Analysis.article_count analysis);
     RiskScorer.urgency_keywords := Some (Analysis.urgency_keywords analysis) |}.

Definition urgency_keywords : list string :=
  [ "delay"; "disruption"; "closure"; "shutdown"; "strike";
    "congestion"; "backlog"; "shortage"; "crisis"; "emergency";
    "blockade"; "storm"; "hurricane"; "typhoon"; "flood";
    "accident"; "incident"; "breakdown"; "failure"; "outage" ].

Definition negative_words : list string :=
  [ "delay"; "disruption"; "problem"; "issue"; "crisis"; "failure" ].

Definition positive_words : list string :=
  [ "smooth"; "efficient"; "resolved"; "improved"; "success" ].

Section Text.

(** [lower text] is [text.lower()]; [contains word text] is [word in text]. *)
Variable lower : string → string.
Variable contains : string → string → bool.

(** [sum(1 for word in words if word in text_lower)] *)
Definition count_words (words : list string) (text_lower : string) : Z :=
  Z.of_nat (length (filter (λ word, contains word text_lower = true) words)).

Definition negative_count (text : string) : Z :=
  count_words negative_words (lower text).

Definition positive_count (text : string) : Z :=
  count_words positive_words (lower text).

(** [analyze_text]; the lazy loading of the model changes no result. *)
Definition analyze_text (text : string) : TextAnalysis.t :=
  let negative_count := negative_count text in
  let positive_count := positive_count text in
  let sentiment_score :=
    if (negative_count >? positive_count)%Z
    then (-0.5 - inject_Z negative_count * 0.1)%Q
    else if (positive_count >? negative_count)%Z
         then (0.3 + inject_Z positive_count * 0.1)%Q
         else 0.0%Q in
  let sentiment_score := Qmax (-1.0) (Qmin 1.0 sentiment_score) in
  let label :=
    if Qlt_bool sentiment_score (-0.3) then "negative"
    else if Qgt_bool sentiment_score 0.3 then "positive"
    else "neutral" in
  {| TextAnalysis.sentiment_score := sentiment_score;
     TextAnalysis.label := label;
     TextAnalysis.confidence := 0.75 |}.

(** [f"{article.get('title', '')} {article.get('content', '')}"] *)
Definition article_text (article : Article.t) : string :=
  default "" (Article.title article) ++ " "
  ++ default "" (Article.content article).

Definition analyze_articles (now : Z) (articles : list Article.t) : Analysis.t :=
  match articles with
  | [] =>
      {| Analysis.sentiment_score := 0.0;
         Analysis.article_count := 0;
         Analysis.urgency_keywords := 0;
         Analysis.individual_scores := None;
         Analysis.timestamp := now |}
  | _ =>
      let sentiment_scores :=
        map (λ article,
               TextAnalysis.sentiment_score (analyze_text (article_text article)))
            articles in
      let total_urgency_keywords :=
        fold_left
          (λ total article,
             (total + count_words urgency_keywords
                        (lower (article_text article)))%Z)
          articles 0%Z in
      let avg_sentiment := mean sentiment_scores in
      {| Analysis.sentiment_score := avg_sentiment;
         Analysis.article_count := Z.of_nat (length articles);
         Analysis.urgency_keywords := total_urgency_keywords;
         Analysis.individual_scores := Some sentiment_scores;
         Analysis.timestamp := now |}
  end.

End Text.

End SentimentAnalyzer.

(** ** backend/main.py: the congestion inputs of a route

    The two handlers [get_routes] and [get_route_details] read the traffic
    dicts of the two endpoint ports, compute one congestion index per
    endpoint and build the [congestion_data] that [compute_route_risk]
    receives. *)

Module MainRoutes.
Import PortTrafficPipeline.

(** [congestion_analyzer.compute_congestion_index(traffic['vessel_count'],
    traffic['capacity'], traffic['wait_time_hours'])] *)
Definition endpoint_congestion (traffic : Traffic.t) : result Q :=
  vessel_count ← getitem "vessel_count" (Traffic.vessel_count traffic);
  capacity ← getitem "capacity" (Traffic.capacity traffic);
  wait_time_hours ← getitem "wait_time_hours" (Traffic.wait_time_hours traffic);
  Ok (CongestionAnalyzer.compute_congestion_index (inject_Z vessel_count)
        (inject_Z capacity) wait_time_hours None).

(** [avg_congestion_data] of [get_routes]: worst index, worst wait,
    floor of the average vessel count. *)
Definition avg_congestion_data (origin_traffic dest_traffic : Traffic.t)
  : result RiskScorer.congestion_data :=
  origin_congestion ← endpoint_congestion origin_traffic;
  dest_congestion ← endpoint_congestion dest_traffic;
  let max_congestion := Qmax origin_congestion dest_congestion in
  origin_count ← getitem "vessel_count" (Traffic.vessel_count origin_traffic);
  dest_count ← getitem "vessel_count" (Traffic.vessel_count dest_traffic);
  origin_wait ← getitem "wait_time_hours" (Traffic.wait_time_hours origin_traffic);
  dest_wait ← getitem "wait_time_hours" (Traffic.wait_time_hours dest_traffic);
  Ok {| RiskScorer.congestion_index := Some max_congestion;
        RiskScorer.wait_time_hours := Some (Qmax origin_wait dest_wait);
        RiskScorer.vessel_count := Some ((origin_count + dest_count) `div` 2)%Z |}.

(** [max_congestion_data] of [get_route_details]: as above, with the
    larger of the two vessel counts. *)
Definition max_congestion_data (origin_traffic dest_traffic : Traffic.t)
  : result RiskScorer.congestion_data :=
  origin_congestion ← endpoint_congestion origin_traffic;
  dest_congestion ← endpoint_congestion dest_traffic;
  origin_count ← getitem "vessel_count" (Traffic.vessel_count origin_traffic);
  dest_count ← getitem "vessel_count" (Traffic.vessel_count dest_traffic);
  origin_wait ← getitem "wait_time_hours" (Traffic.wait_time_hours origin_traffic);
  dest_wait ← getitem "wait_time_hours" (Traffic.wait_time_hours dest_traffic);
  Ok {| RiskScorer.congestion_index :=
          Some (Qmax origin_congestion dest_congestion);
        RiskScorer.wait_time_hours := Some (Qmax origin_wait dest_wait);
        RiskScorer.vessel_count := Some (Z.max origin_count dest_count) |}.

End MainRoutes.

(** ** Vocabulary of the statements

    The documented input ranges of the four component scorers: sentiment
    scores in [-1, 1], congestion indices and disruption rates in [0, 1],
    durations, waiting times and counts non-negative.  An absent key
    stands for the default that the scorer reads ([0.0] or [0]). *)

Module Domain.
Import RiskScorer.

Definition weather (w : weather_data) : Prop :=
  (0 <= default 0 (duration_hours w))%Q.

Definition sentiment (sd : sentiment_data) : Prop :=
  (-1 <= default 0.0 (sentiment_score sd) <= 1)%Q
  ∧ (0 <= default 0 (article_count sd))%Z
  ∧ (0 <= default 0 (urgency_keywords sd))%Z.

Definition congestion (cd : congestion_data) : Prop :=
  (0 <= default 0.0 (congestion_index cd) <= 1)%Q
  ∧ (0 <= default 0 (wait_time_hours cd))%Q
  ∧ (0 <= default 0 (vessel_count cd))%Z.

Definition historical (h : option historical_data) : Prop :=
  match h with
  | None => True
  | Some hd =>
      (0 <= default 0.0 (disruption_rate hd) <= 1)%Q
      ∧ (0 <= default 0 (recent_disruptions hd))%Z
  end.

End Domain.

(** The quantities in which the cascade statements are phrased. *)

Module Cascade.


(** The dependents that the graph lists for a route (none without a
    graph, or when the route is not a key of it). *)
Definition dependents (graph : option (gmap string (list string)))
    (route_id : string) : list string :=
  match graph with
  | Some g => default [] (g !! route_id)
  | None => []
  end.



End Cascade.

(** The level of an alert on the scale of the weather pipeline; 0 for a
    severity outside the scale, or none. *)

Module AlertLevel.

Definition level (alert : WeatherPipeline.Alert.t) : Z :=
  match WeatherPipeline.Alert.severity alert with
  | Some severity => default 0%Z (WeatherPipeline.severity_levels !! severity)
  | None => 0%Z
  end.

End AlertLevel.

(** The order of a ranking by risk: [a] may come before [b]. *)

Module Ranking.

Definition risk_ge (a b : Ontology.Route.t) : Prop :=
  (Ontology.Route.risk_score b <= Ontology.Route.risk_score a)%Q.

End Ranking.

(** Case analysis on every [min] and [max] of a goal over [Q], closed by
    linear arithmetic. *)

Ltac q_name_minmax :=
  repeat match goal with
  | |- context [Qmin ?a ?b] =>
      let m := fresh "m" in
      pose proof (Q.min_spec a b); set (m := Qmin a b) in *; clearbody m
  | |- context [Qmax ?a ?b] =>
      let m := fresh "m" in
      pose proof (Q.max_spec a b); set (m := Qmax a b) in *; clearbody m
  | H : context [Qmin ?a ?b] |- _ =>
      let m := fresh "m" in
      pose proof (Q.min_spec a b); set (m := Qmin a b) in *; clearbody m
  | H : context [Qmax ?a ?b] |- _ =>
      let m := fresh "m" in
      pose proof (Q.max_spec a b); set (m := Qmax a b) in *; clearbody m
  end.

Ltac q_minmax := q_name_minmax; intuition lra.

(** * Properties of the embedded code *)

(** ** Rational arithmetic used by the scorers *)

Section Arith.
Local Open Scope Q_scope.

Lemma Qmin_1_le (x : Q) : Qmin 1.0 x <= 1.
Proof. pose proof (Q.le_min_l 1.0 x). lra. Qed.

Lemma Qmin_1_nonneg (x : Q) : 0 <= x → 0 <= Qmin 1.0 x.
Proof. intros Hx. apply Q.min_glb; lra. Qed.

Lemma Qge_bool_true (a b : Q) : Qge_bool a b = true ↔ b <= a.
Proof. unfold Qge_bool. apply Qle_bool_iff. Qed.

Lemma Qge_bool_false (a b : Q) : Qge_bool a b = false ↔ a < b.
Proof.
  unfold Qge_bool. rewrite <- not_true_iff_false, Qle_bool_iff.
  split; [apply Qnot_le_lt | apply Qlt_not_le].
Qed.

(** [min(1.0, n / k)] for a non-negative count [n] and a positive [k]. *)
Lemma count_factor_range (n : Z) (k : Q) :
  (0 <= n)%Z → 0 < k → 0 <= Qmin 1.0 (inject_Z n / k) <= 1.
Proof.
  intros Hn Hk. split; [|apply Qmin_1_le].
  apply Qmin_1_nonneg. apply Qle_shift_div_l; [exact Hk|].
  rewrite Qmult_0_l. change 0 with (inject_Z 0). now rewrite <- Zle_Qle.
Qed.

Lemma time_factor_range (x k : Q) :
  0 <= x → 0 < k → 0 <= Qmin 1.0 (x / k) <= 1.
Proof.
  intros Hx Hk. split; [|apply Qmin_1_le].
  apply Qmin_1_nonneg. apply Qle_shift_div_l; [exact Hk|]. lra.
Qed.

End Arith.

(** ** The risk scorer *)

Section RiskScorerProperties.
Import RiskScorer.
Local Open Scope Q_scope.

(** What a successful construction stores. *)
Lemma __init___Ok (a b c d : Q) (s : t) :
  __init__ a b c d = Ok s →
  ¬ a + b + c + d == 0 ∧
  s = {| weather_weight := a / (a + b + c + d);
         sentiment_weight := b / (a + b + c + d);
         congestion_weight := c / (a + b + c + d);
         historical_weight := d / (a + b + c + d);
         high_risk_threshold := 0.7;
         medium_risk_threshold := 0.4 |}.
Proof.
  unfold __init__. destruct (Qeq_bool (a + b + c + d) 0) eqn:E; [discriminate|].
  intros [= <-]. split; [|reflexivity].
  intros H. apply Qeq_bool_iff in H. congruence.
Qed.






Lemma compute_sentiment_risk_le_1 sd : compute_sentiment_risk sd <= 1.
Proof. apply Qmin_1_le. Qed.

Lemma compute_congestion_risk_le_1 cd : compute_congestion_risk cd <= 1.
Proof. apply Qmin_1_le. Qed.


(** *** Construction *)






(** *** The four component scorers *)


Lemma compute_sentiment_risk_nonneg sd :
  Domain.sentiment sd → 0 <= compute_sentiment_risk sd.
Proof.
  intros (Hs & Ha & Hu). unfold compute_sentiment_risk. apply Qmin_1_nonneg.
  assert (H10 : 0 < 10.0) by reflexivity.
  assert (H5 : 0 < 5.0) by reflexivity.
  pose proof (count_factor_range _ 10.0 Ha H10) as Hv.
  pose proof (count_factor_range _ 5.0 Hu H5) as Hk.
  apply Qmult_le_0_compat; [|lra].
  apply Qle_shift_div_l; [reflexivity|]. lra.
Qed.

Lemma compute_congestion_risk_nonneg cd :
  Domain.congestion cd → 0 <= compute_congestion_risk cd.
Proof.
  intros (Hi & Hw & Hv). unfold compute_congestion_risk. apply Qmin_1_nonneg.
  assert (H72 : 0 < 72.0) by reflexivity.
  assert (H50 : 0 < 50.0) by reflexivity.
  pose proof (time_factor_range _ 72.0 Hw H72) as Hwf.
  pose proof (count_factor_range _ 50.0 Hv H50) as Hcf.
  lra.
Qed.





(** *** The composite score and its level *)



(** The bound of C5 is attained: every component at its maximum. *)
Lemma total_risk_without_history_attains_bound :
  ∃ s, with_defaults = Ok s
    ∧ Assessment.total_risk
        (compute_route_risk s 0 "LAX-SHG"
           {| severity := Some "extreme"; type := Some "hurricane";
              duration_hours := Some 48 |}
           {| sentiment_score := Some (-1); article_count := Some 10%Z;
              urgency_keywords := Some 5%Z |}
           {| congestion_index := Some 1; wait_time_hours := Some 72;
              vessel_count := Some 50%Z |}
           None) == 0.91.
Proof. eexists. split; reflexivity. Qed.

(** C7: the level of an assessment is ['high'] from a total of exactly 0.7
    upwards, ['medium'] from exactly 0.4 up to but excluding 0.7, and
    ['low'] strictly below 0.4, for every scorer that [__init__] builds
    and every input. *)
Theorem C7_risk_level_boundaries (a b c d : Q) (s : t) (now : Z)
    (route_id : string) w sd cd h :
  __init__ a b c d = Ok s →
  let r := compute_route_risk s now route_id w sd cd h in
  (0.7 <= Assessment.total_risk r → Assessment.risk_level r = "high")
  ∧ (0.4 <= Assessment.total_risk r < 0.7 →
     Assessment.risk_level r = "medium")
  ∧ (Assessment.total_risk r < 0.4 → Assessment.risk_level r = "low").
Proof.
  intros Hs. apply __init___Ok in Hs as [_ ->]. cbn.
  set (total := _ + _ + _ + _).
  destruct (Qge_bool total 0.7) eqn:Hhi;
    [apply Qge_bool_true in Hhi | apply Qge_bool_false in Hhi];
    (destruct (Qge_bool total 0.4) eqn:Hmed;
     [apply Qge_bool_true in Hmed | apply Qge_bool_false in Hmed]);
    repeat split; intros; try reflexivity; lra.
Qed.

(** Totals of exactly 0.7, exactly 0.4 and 0.39999, obtained from the
    congestion component alone (weights 0 / 0 / 1 / 0). *)
Lemma C7_witness :
  let congested (index : Q) :=
    {| congestion_index := Some index; wait_time_hours := Some 48;
       vessel_count := Some 0%Z |} in
  let nothing := {| severity := None; type := None; duration_hours := None |} in
  let silent := {| sentiment_score := None; article_count := None;
                   urgency_keywords := None |} in
  ∃ s, __init__ 0 0 1 0 = Ok s
    ∧ (let r := compute_route_risk s 0 "LAX-SHG" nothing silent
                  (congested 1) None in
       Assessment.total_risk r == 0.7 ∧ Assessment.risk_level r = "high")
    ∧ (let r := compute_route_risk s 0 "LAX-SHG" nothing silent
                  (congested 0.4) None in
       Assessment.total_risk r == 0.4 ∧ Assessment.risk_level r = "medium")
    ∧ (let r := compute_route_risk s 0 "LAX-SHG" nothing silent
                  (congested 0.39998) None in
       Assessment.total_risk r == 0.39999 ∧ Assessment.risk_level r = "low").
Proof.
  intros congested nothing silent.
  eexists. split; [reflexivity|].
  split; [|split].
  - split; [reflexivity|].
    eapply (C7_risk_level_boundaries 0 0 1 0); [reflexivity|].
    vm_compute; discriminate.
  - split; [reflexivity|].
    eapply (C7_risk_level_boundaries 0 0 1 0); [reflexivity|].
    split; vm_compute; [discriminate | reflexivity].
  - split; [reflexivity|].
    eapply (C7_risk_level_boundaries 0 0 1 0); [reflexivity|].
    vm_compute; reflexivity.
Defined.

End RiskScorerProperties.

(** ** The cascade forecast *)

Section CascadeProperties.
Import Cascade.
Local Open Scope Q_scope.













End CascadeProperties.

(** ** The bottleneck merge of [main.py] *)

Section MainProperties.
Import RiskScorer Main.
Local Open Scope Z_scope.

(** The ordinal scale none < light < moderate < severe < extreme. *)
Lemma severity_scale :
  _weather_severity_value "none" < _weather_severity_value "light"
  ∧ _weather_severity_value "light" < _weather_severity_value "moderate"
  ∧ _weather_severity_value "moderate" < _weather_severity_value "severe"
  ∧ _weather_severity_value "severe" < _weather_severity_value "extreme".
Proof. repeat split. Qed.

Lemma worst_weather_origin origin dest so sd :
  severity origin = Some so → severity dest = Some sd →
  _weather_severity_value sd <= _weather_severity_value so →
  worst_weather origin dest = Ok origin.
Proof.
  intros Ho Hd Hle. unfold worst_weather. rewrite Ho, Hd. cbn.
  destruct (Z.geb_spec (_weather_severity_value so)
                       (_weather_severity_value sd)); [reflexivity | lia].
Qed.

Lemma worst_weather_dest origin dest so sd :
  severity origin = Some so → severity dest = Some sd →
  _weather_severity_value so < _weather_severity_value sd →
  worst_weather origin dest = Ok dest.
Proof.
  intros Ho Hd Hlt. unfold worst_weather. rewrite Ho, Hd. cbn.
  destruct (Z.geb_spec (_weather_severity_value so)
                       (_weather_severity_value sd)); [lia | reflexivity].
Qed.

(** C6: between the two endpoint records the merge returns the one of
    higher severity ordinal, on the scale none < light < moderate <
    severe < extreme; the comparison is [>=] on the origin side, so the
    origin's record is returned on a tie; with origin 'moderate' and
    destination 'extreme' the destination's record is returned. *)
Theorem C6_bottleneck_weather_selection (origin dest : weather_data)
    (so sd : string) :
  severity origin = Some so → severity dest = Some sd →
  (_weather_severity_value sd < _weather_severity_value so →
   worst_weather origin dest = Ok origin)
  ∧ (_weather_severity_value so < _weather_severity_value sd →
     worst_weather origin dest = Ok dest)
  ∧ (_weather_severity_value so = _weather_severity_value sd →
     worst_weather origin dest = Ok origin)
  ∧ (so = "moderate" → sd = "extreme" → worst_weather origin dest = Ok dest)
  ∧ (_weather_severity_value "none" < _weather_severity_value "light"
     ∧ _weather_severity_value "light" < _weather_severity_value "moderate"
     ∧ _weather_severity_value "moderate" < _weather_severity_value "severe"
     ∧ _weather_severity_value "severe" < _weather_severity_value "extreme").
Proof.
  intros Ho Hd. repeat apply conj.
  - intros H. apply (worst_weather_origin _ _ so sd); auto; lia.
  - intros H. apply (worst_weather_dest _ _ so sd); auto.
  - intros H. apply (worst_weather_origin _ _ so sd); auto; lia.
  - intros -> ->. apply (worst_weather_dest _ _ "moderate" "extreme"); auto.
    reflexivity.
  - reflexivity.
  - reflexivity.
  - reflexivity.
  - reflexivity.
Qed.

Lemma C6_witness :
  let origin := {| severity := Some "moderate"; type := Some "fog";
                   duration_hours := Some 6%Q |} in
  let dest := {| severity := Some "extreme"; type := Some "typhoon";
                 duration_hours := Some 30%Q |} in
  let tied := {| severity := Some "moderate"; type := Some "storm";
                 duration_hours := Some 2%Q |} in
  worst_weather origin dest = Ok dest
  ∧ worst_weather dest origin = Ok dest
  ∧ worst_weather origin tied = Ok origin.
Proof.
  intros origin dest tied.
  destruct (C6_bottleneck_weather_selection origin dest "moderate" "extreme"
              eq_refl eq_refl) as (_ & Hlt & _).
  destruct (C6_bottleneck_weather_selection dest origin "extreme" "moderate"
              eq_refl eq_refl) as (Hgt & _).
  destruct (C6_bottleneck_weather_selection origin tied "moderate" "moderate"
              eq_refl eq_refl) as (_ & _ & Htie & _).
  split; [|split].
  - apply Hlt. reflexivity.
  - apply Hgt. reflexivity.
  - apply Htie. reflexivity.
Defined.

End MainProperties.

(** ** The ingestion cache *)

Section CacheProperties.
Local Open Scope Z_scope.

(** The configured time-to-live: 5 minutes for traffic, 10 for weather. *)
Lemma configured_cache_durations :
  PortTrafficPipeline.cache_duration PortTrafficPipeline.__init__
  = 5 * 60 * 1000000
  ∧ WeatherPipeline.cache_duration WeatherPipeline.__init__
    = 10 * 60 * 1000000.
Proof. split; reflexivity. Qed.

Lemma traffic_cache_valid_iff self now cache_data c :
  PortTrafficPipeline.Cache.timestamp cache_data = Some c →
  PortTrafficPipeline._is_cache_valid self now cache_data = true
  ↔ now - c < PortTrafficPipeline.cache_duration self.
Proof.
  intros Hc. unfold PortTrafficPipeline._is_cache_valid. rewrite Hc.
  apply Z.ltb_lt.
Qed.

Lemma weather_cache_valid_iff self now cache_data c :
  WeatherPipeline.Cache.timestamp cache_data = Some c →
  WeatherPipeline._is_cache_valid self now cache_data = true
  ↔ now - c < WeatherPipeline.cache_duration self.
Proof.
  intros Hc. unfold WeatherPipeline._is_cache_valid. rewrite Hc.
  apply Z.ltb_lt.
Qed.

(** C8: for a cache entry created at [c], the validity check at time [t]
    is true exactly when [t - c < TTL]; so an entry valid at some time is
    valid at every [t''] with [c <= t'' < c + TTL], and is valid at no
    [t' > c + TTL].  This holds of the traffic and of the weather
    pipeline, each with its own TTL. *)
Theorem C8_cache_validity_window (c : Z) :
  (∀ self cache_data,
     PortTrafficPipeline.Cache.timestamp cache_data = Some c →
     let valid t := PortTrafficPipeline._is_cache_valid self t cache_data in
     let ttl := PortTrafficPipeline.cache_duration self in
     (∀ t, valid t = true ↔ t - c < ttl)
     ∧ (∀ t t'', valid t = true → c <= t'' < c + ttl → valid t'' = true)
     ∧ (∀ t', c + ttl < t' → valid t' = false))
  ∧ (∀ self cache_data,
       WeatherPipeline.Cache.timestamp cache_data = Some c →
       let valid t := WeatherPipeline._is_cache_valid self t cache_data in
       let ttl := WeatherPipeline.cache_duration self in
       (∀ t, valid t = true ↔ t - c < ttl)
       ∧ (∀ t t'', valid t = true → c <= t'' < c + ttl → valid t'' = true)
       ∧ (∀ t', c + ttl < t' → valid t' = false)).
Proof.
  split; intros self cache_data Hc valid ttl.
  - assert (Hiff : ∀ t, valid t = true ↔ t - c < ttl)
      by (intros t; now apply traffic_cache_valid_iff).
    split; [exact Hiff|]. split.
    + intros t t'' _ Ht. apply Hiff. lia.
    + intros t' Ht. apply not_true_is_false. rewrite Hiff. lia.
  - assert (Hiff : ∀ t, valid t = true ↔ t - c < ttl)
      by (intros t; now apply weather_cache_valid_iff).
    split; [exact Hiff|]. split.
    + intros t t'' _ Ht. apply Hiff. lia.
    + intros t' Ht. apply not_true_is_false. rewrite Hiff. lia.
Qed.

(** An entry created at second 1000: valid 299 s later and invalid 301 s
    later for traffic; valid 599 s later and invalid 601 s later for
    weather. *)
Lemma C8_witness :
  let traffic_entry :=
    {| PortTrafficPipeline.Cache.timestamp := Some 1000000000;
       PortTrafficPipeline.Cache.data :=
         Some PortTrafficPipeline.Traffic.empty_dict |} in
  let weather_entry :=
    {| WeatherPipeline.Cache.timestamp := Some 1000000000;
       WeatherPipeline.Cache.data := Some [] |} in
  (PortTrafficPipeline._is_cache_valid PortTrafficPipeline.__init__
     1299000000 traffic_entry = true
   ∧ PortTrafficPipeline._is_cache_valid PortTrafficPipeline.__init__
       1301000000 traffic_entry = false)
  ∧ (WeatherPipeline._is_cache_valid WeatherPipeline.__init__
       1599000000 weather_entry = true
     ∧ WeatherPipeline._is_cache_valid WeatherPipeline.__init__
         1601000000 weather_entry = false).
Proof.
  intros traffic_entry weather_entry.
  destruct (C8_cache_validity_window 1000000000) as [HT HW].
  destruct (HT PortTrafficPipeline.__init__ traffic_entry eq_refl)
    as (HT1 & _ & HT3).
  destruct (HW WeatherPipeline.__init__ weather_entry eq_refl)
    as (HW1 & _ & HW3).
  split; split.
  - apply HT1. reflexivity.
  - apply HT3. reflexivity.
  - apply HW1. reflexivity.
  - apply HW3. reflexivity.
Defined.

End CacheProperties.

(** ** The traffic pipeline *)

Section TrafficProperties.
Import PortTrafficPipeline.
Local Open Scope Z_scope.

(** [ingest_port_traffic] regenerates on a forced refresh, on a missing or
    unreadable cache file, and on an expired entry. *)
Lemma check_cache_forced self fs now port_id :
  check_cache self fs now port_id true = None.
Proof. reflexivity. Qed.


Lemma check_cache_expired self fs now port_id force_refresh cache_data :
  _load_cache fs port_id = Some cache_data →
  _is_cache_valid self now cache_data = false →
  check_cache self fs now port_id force_refresh = None.
Proof.
  intros H Hv. unfold check_cache. rewrite H, Hv, andb_false_r.
  now destruct (_ && _).
Qed.

(** No path of [ingest_port_traffic] writes a history file: the function
    has no call to [update_port_history]. *)
Lemma ingest_port_traffic_history self fs now generated port_id force_refresh :
  history_files
    (ingest_port_traffic self fs now generated port_id force_refresh).2
  = history_files fs.
Proof.
  unfold ingest_port_traffic.
  destruct (check_cache self fs now port_id force_refresh); [reflexivity|].
  now destruct (add_historical_context fs port_id generated).
Qed.

(** [update_port_history] keeps the 7-day trailing window: every entry of
    the file it writes is at most 7 days old. *)
Lemma update_port_history_window fs now port_id traffic_data history :
  history_files (update_port_history fs now port_id traffic_data) !! port_id
  = Some history →
  Forall (λ entry, now - days 7 <= History.timestamp entry) history.
Proof.
  unfold update_port_history. cbn. rewrite lookup_insert_eq.
  intros [= <-]. apply Forall_forall. intros entry Hin.
  apply list_elem_of_filter in Hin as [Hge _]. lia.
Qed.

(** It appends the new entry when its timestamp is within the window. *)
Lemma update_port_history_appends fs now port_id traffic_data :
  now - days 7 <= default now (Traffic.timestamp traffic_data) →
  ∃ older,
    history_files (update_port_history fs now port_id traffic_data) !! port_id
    = Some (older ++
            [ {| History.timestamp :=
                   default now (Traffic.timestamp traffic_data);
                 History.vessel_count :=
                   default 0 (Traffic.vessel_count traffic_data);
                 History.wait_time_hours :=
                   default 0%Q (Traffic.wait_time_hours traffic_data);
                 History.congestion_index :=
                   default 0%Q (Traffic.congestion_index traffic_data) |} ])%list.
Proof.
  intros Hw. unfold update_port_history. cbn. rewrite lookup_insert_eq.
  rewrite filter_app, filter_cons_True, filter_nil; [|cbn; lia].
  eexists. reflexivity.
Qed.

(** C3, on the code: a first ingest for the port LAX (cache miss, at
    second 1000) returns the generated value and writes it to the cache,
    but the history file of the port is still absent afterwards; the entry
    would have been there had [update_port_history] been called. *)
Theorem C3_ingest_writes_no_history :
  let fs := {| cache_files := ∅; history_files := ∅ |} in
  let now := 1000000000 in
  let generated :=
    {| Traffic.port_id := Some "LAX"; Traffic.port_name := Some "Los Angeles";
       Traffic.vessel_count := Some 52; Traffic.capacity := Some 100;
       Traffic.wait_time_hours := Some 21.5%Q;
       Traffic.congestion_index := Some 0.55%Q;
       Traffic.timestamp := Some now;
       Traffic.latitude := Some 33.75%Q;
       Traffic.longitude := Some (-118.25)%Q;
       Traffic.previous_vessel_count := None; Traffic.trend := None |} in
  let after := ingest_port_traffic __init__ fs now generated "LAX" false in
  after.1 = Ok generated
  ∧ cache_files after.2 !! "LAX"
    = Some (Stored {| Cache.timestamp := Some now;
                      Cache.data := Some generated |})
  ∧ history_files after.2 !! "LAX" = None
  ∧ history_files (update_port_history after.2 now "LAX" generated) !! "LAX"
    = Some [ {| History.timestamp := now; History.vessel_count := 52;
                History.wait_time_hours := 21.5%Q;
                History.congestion_index := 0.55%Q |} ].
Proof.
  intros fs now generated after. repeat split.
Qed.

(** The derived keys, when a previous cached value exists. *)
Lemma add_historical_context_previous fs port_id generated previous_data
    previous new_count :
  _load_cache fs port_id = Some previous_data →
  Cache.data previous_data = Some previous →
  Traffic.vessel_count generated = Some new_count →
  ∃ traffic_data,
    add_historical_context fs port_id generated = Ok traffic_data
    ∧ Traffic.vessel_count traffic_data = Some new_count
    ∧ Traffic.previous_vessel_count traffic_data
      = Some (default 0 (Traffic.vessel_count previous))
    ∧ Traffic.trend traffic_data
      = Some (if new_count >? default 0 (Traffic.vessel_count previous)
              then "increasing" else "decreasing").
Proof.
  intros Hload Hdata Hnew. unfold add_historical_context.
  assert (Hex : is_Some (cache_files fs !! port_id)).
  { unfold _load_cache in Hload.
    destruct (cache_files fs !! port_id); [by eexists | discriminate]. }
  rewrite (bool_decide_eq_true_2 _ Hex), Hload.
  assert (Ht : Cache.truthy previous_data = true).
  { unfold Cache.truthy. rewrite Hdata.
    rewrite (bool_decide_eq_true_2 (is_Some (Some previous)));
      [apply orb_true_r | by eexists]. }
  rewrite Ht, Hdata, Hnew. cbn. eexists. split; [reflexivity|].
  cbn. auto.
Qed.

(** C10: when [ingest_port_traffic] regenerates a value for a port that
    has a previous cached value, it returns a record whose ['trend'] is
    ['increasing'] exactly when the new vessel count is strictly greater
    than the previous one (0 when the previous value has no count) and
    ['decreasing'] in every other case, equal counts included; ['stable']
    is never produced. *)
Theorem C10_trend_of_regenerated_value (self : t) (fs : files) (now : Z)
    (generated : Traffic.t) (port_id : string) (force_refresh : bool)
    (previous_data : Cache.t) (previous : Traffic.t) (new_count : Z) :
  check_cache self fs now port_id force_refresh = None →
  _load_cache fs port_id = Some previous_data →
  Cache.data previous_data = Some previous →
  Traffic.vessel_count generated = Some new_count →
  let previous_count := default 0 (Traffic.vessel_count previous) in
  ∃ returned,
    (ingest_port_traffic self fs now generated port_id force_refresh).1
    = Ok returned
    ∧ Traffic.vessel_count returned = Some new_count
    ∧ (Traffic.trend returned = Some "increasing"
       ↔ previous_count < new_count)
    ∧ (Traffic.trend returned = Some "decreasing"
       ↔ new_count <= previous_count)
    ∧ Traffic.trend returned ≠ Some "stable".
Proof.
  intros Hregen Hload Hdata Hnew previous_count.
  destruct (add_historical_context_previous _ _ _ _ _ _ Hload Hdata Hnew)
    as (returned & Hctx & Hcount & _ & Htrend).
  exists returned. unfold ingest_port_traffic. rewrite Hregen, Hctx.
  split; [reflexivity|]. split; [exact Hcount|].
  rewrite Htrend. fold previous_count.
  destruct (Z.gtb_spec new_count previous_count);
    repeat split; intros; try discriminate; try reflexivity; lia.
Qed.

(** A forced refresh for LAX, five seconds after a value with 52 vessels
    was cached (so the entry is still valid), generating 52 vessels
    again: the trend is ['decreasing']. *)
Lemma C10_witness :
  let cached :=
    {| Traffic.port_id := Some "LAX"; Traffic.port_name := Some "Los Angeles";
       Traffic.vessel_count := Some 52; Traffic.capacity := Some 100;
       Traffic.wait_time_hours := Some 21.5%Q;
       Traffic.congestion_index := Some 0.55%Q;
       Traffic.timestamp := Some 1000000000;
       Traffic.latitude := Some 33.75%Q;
       Traffic.longitude := Some (-118.25)%Q;
       Traffic.previous_vessel_count := None; Traffic.trend := None |} in
  let entry := {| Cache.timestamp := Some 1000000000;
                  Cache.data := Some cached |} in
  let fs := {| cache_files := {[ "LAX" := Stored entry ]};
               history_files := ∅ |} in
  ∃ returned,
    (ingest_port_traffic __init__ fs 1005000000 cached "LAX" true).1
    = Ok returned
    ∧ Traffic.vessel_count returned = Some 52
    ∧ (Traffic.trend returned = Some "increasing" ↔ 52 < 52)
    ∧ (Traffic.trend returned = Some "decreasing" ↔ 52 <= 52)
    ∧ Traffic.trend returned ≠ Some "stable".
Proof.
  intros cached entry fs.
  exact (C10_trend_of_regenerated_value __init__ fs 1005000000 cached "LAX"
           true entry cached 52 eq_refl eq_refl eq_refl eq_refl).
Defined.

End TrafficProperties.

(** * Further properties: the code around the claims *)

(** ** More rational arithmetic *)

Section ArithMore.
Local Open Scope Q_scope.

Lemma Qgt_bool_true (a b : Q) : Qgt_bool a b = true ↔ b < a.
Proof.
  unfold Qgt_bool. rewrite negb_true_iff, <- not_true_iff_false, Qle_bool_iff.
  split; [apply Qnot_le_lt | apply Qlt_not_le].
Qed.

Lemma Qgt_bool_false (a b : Q) : Qgt_bool a b = false ↔ a <= b.
Proof. unfold Qgt_bool. rewrite negb_false_iff. apply Qle_bool_iff. Qed.

Lemma Qdiv_le_mono (a b c : Q) : 0 < c → a <= b → a / c <= b / c.
Proof.
  intros Hc Hab. unfold Qdiv. apply Qmult_le_compat_r; [exact Hab|].
  apply Qlt_le_weak, Qinv_lt_0_compat, Hc.
Qed.

Lemma Qdiv_nonneg (a c : Q) : 0 <= a → 0 < c → 0 <= a / c.
Proof. intros Ha Hc. apply Qle_shift_div_l; [exact Hc | lra]. Qed.

Lemma Qmin_1_mono (x y : Q) : x <= y → Qmin 1.0 x <= Qmin 1.0 y.
Proof. intros H. q_minmax. Qed.

Lemma Qmax_0_mono (x y : Q) : x <= y → Qmax 0.0 x <= Qmax 0.0 y.
Proof. intros H. q_minmax. Qed.

Lemma inject_Z_le (a b : Z) : (a <= b)%Z → inject_Z a <= inject_Z b.
Proof. intros H. now rewrite <- Zle_Qle. Qed.

Lemma int_of_float_nonneg (x : Q) : 0 <= x → (0 <= int_of_float x)%Z.
Proof.
  intros H. unfold int_of_float. apply Z.quot_pos; [|lia].
  unfold Qle in H. simpl in H. lia.
Qed.

End ArithMore.

(** ** The congestion analyzer *)

Section CongestionProperties.
Import CongestionAnalyzer.
Local Open Scope Q_scope.

(** The final clamp [min(1.0, max(0.0, .))]. *)
Lemma compute_congestion_index_range (v c w : Q) (h : option Q) :
  0 <= compute_congestion_index v c w h <= 1.
Proof.
  unfold compute_congestion_index.
  set (x := _ + _ + _). clearbody x. q_minmax.
Qed.

(** X1: the congestion index lies in [0, 1] for every input, a
    capacity of zero or less included (no division is made then).
    Without a historical average, as the request handlers call it, it
    never exceeds 0.9, and it is at least 0.1 for non-negative vessel
    counts and waiting times. *)
Theorem congestion_index_bounds (v c w : Q) (h : option Q) :
  0 <= compute_congestion_index v c w h <= 1
  ∧ compute_congestion_index v c w None <= 0.9
  ∧ (0 <= v → 0 <= w → 0.1 <= compute_congestion_index v c w None).
Proof.
  split; [apply compute_congestion_index_range|].
  unfold compute_congestion_index.
  destruct (Qgt_bool c 0) eqn:Hc.
  - apply Qgt_bool_true in Hc. split.
    + set (a := v / c). set (b := w / 72.0). clearbody a b. q_minmax.
    + intros Hv Hw.
      pose proof (Qdiv_nonneg v c Hv Hc).
      assert (0 <= w / 72.0) by (apply Qdiv_nonneg; [exact Hw | reflexivity]).
      set (a := v / c) in *. set (b := w / 72.0) in *. clearbody a b. q_minmax.
  - split.
    + set (b := w / 72.0). clearbody b. q_minmax.
    + intros Hv Hw.
      assert (0 <= w / 72.0) by (apply Qdiv_nonneg; [exact Hw | reflexivity]).
      set (b := w / 72.0) in *. clearbody b. q_minmax.
Qed.

Lemma congestion_index_bounds_witness :
  0 <= compute_congestion_index 52 0 21.5 (Some 12) <= 1
  ∧ compute_congestion_index 52 100 21.5 None <= 0.9
  ∧ 0.1 <= compute_congestion_index 52 100 21.5 None.
Proof.
  destruct (congestion_index_bounds 52 0 21.5 (Some 12)) as [Hr _].
  destruct (congestion_index_bounds 52 100 21.5 None) as (_ & Hle & Hge).
  split; [exact Hr|]. split; [exact Hle | apply Hge; vm_compute; discriminate].
Defined.

(** X2: for a given capacity and historical average, the index never
    decreases when the vessel count and the waiting time grow. *)
Theorem congestion_index_monotone (v1 v2 c w1 w2 : Q) (h : option Q) :
  v1 <= v2 → w1 <= w2 →
  compute_congestion_index v1 c w1 h <= compute_congestion_index v2 c w2 h.
Proof.
  intros Hv Hw. unfold compute_congestion_index.
  apply Qmin_1_mono, Qmax_0_mono.
  assert (Hcu : (if Qgt_bool c 0 then Qmin 1.0 (v1 / c) else 0.0)
                <= (if Qgt_bool c 0 then Qmin 1.0 (v2 / c) else 0.0)).
  { destruct (Qgt_bool c 0) eqn:Hc; [|lra].
    apply Qgt_bool_true in Hc. now apply Qmin_1_mono, Qdiv_le_mono. }
  assert (Hwf : Qmin 1.0 (w1 / 72.0) <= Qmin 1.0 (w2 / 72.0)).
  { apply Qmin_1_mono, Qdiv_le_mono; [reflexivity | exact Hw]. }
  destruct h as [h|]; [destruct (Qeq_bool h 0)|]; try lra.
  assert (Hhf : Qmin 1.0 (Qmax 0.0 (0.5 + (w1 - h) / Qmax h 1.0 * 0.5))
                <= Qmin 1.0 (Qmax 0.0 (0.5 + (w2 - h) / Qmax h 1.0 * 0.5))).
  { apply Qmin_1_mono, Qmax_0_mono.
    assert (HM : 0 < Qmax h 1.0).
    { pose proof (Q.le_max_r h 1.0). lra. }
    pose proof (Qdiv_le_mono (w1 - h) (w2 - h) _ HM). lra. }
  lra.
Qed.

Lemma congestion_index_monotone_witness :
  compute_congestion_index 40 100 12 (Some 20)
  <= compute_congestion_index 55 100 30 (Some 20).
Proof.
  apply congestion_index_monotone; vm_compute; discriminate.
Defined.

(** X3: [predict_congestion] raises [KeyError] when ['vessel_count'] or
    ['wait_time_hours'] is missing; otherwise it returns a projection 24
    hours ahead whose vessel count is non-negative and whose index lies
    in [0, 1]; a processing rate of zero or less adds 24 hours to the
    current wait, and a positive rate that absorbs the whole inflow
    empties the port: no vessel and no wait. *)
Theorem predict_congestion_projection (now : Z) (m : Metrics.t)
    (incoming : Z) (rate : Q) :
  (Metrics.vessel_count m = None →
   predict_congestion now m incoming rate = Raise (KeyError "vessel_count"))
  ∧ (is_Some (Metrics.vessel_count m) → Metrics.wait_time_hours m = None →
     predict_congestion now m incoming rate
     = Raise (KeyError "wait_time_hours"))
  ∧ ∀ vessels wait,
      Metrics.vessel_count m = Some vessels →
      Metrics.wait_time_hours m = Some wait →
      ∃ p, predict_congestion now m incoming rate = Ok p
        ∧ Projection.hours_ahead p = 24%Z
        ∧ (0 <= Projection.projected_vessel_count p)%Z
        ∧ 0 <= Projection.projected_congestion_index p <= 1
        ∧ (rate <= 0 → Projection.projected_wait_hours p == wait + 24)
        ∧ (0 < rate → 0 <= Projection.projected_wait_hours p)
        ∧ (0 < rate → inject_Z (vessels + incoming) <= rate * 24 →
           Projection.projected_vessel_count p = 0%Z
           ∧ Projection.projected_wait_hours p == 0).
Proof.
  split; [|split].
  - intros H. unfold predict_congestion. now rewrite H.
  - intros [v Hv] H. unfold predict_congestion. now rewrite Hv, H.
  - intros vessels wait Hv Hw. unfold predict_congestion. rewrite Hv, Hw. cbn.
    eexists. split; [reflexivity|]. cbn.
    split; [reflexivity|].
    split; [apply int_of_float_nonneg, Q.le_max_l|].
    split; [apply compute_congestion_index_range|].
    split; [|split].
    + intros Hr. apply Qgt_bool_false in Hr. rewrite Hr. reflexivity.
    + intros Hr. pose proof Hr as Hr'. apply Qgt_bool_true in Hr'.
      rewrite Hr'. apply Qdiv_nonneg; [apply Q.le_max_l | exact Hr].
    + intros Hr Hclear. pose proof Hr as Hr'. apply Qgt_bool_true in Hr'.
      rewrite Hr'.
      assert (HM : Qmax 0 (inject_Z (vessels + incoming) - rate * inject_Z 24)
                   == 0).
      { change (inject_Z 24) with 24. q_minmax. }
      split.
      * unfold int_of_float. unfold Qeq in HM. simpl in HM.
        rewrite Z.mul_1_r in HM. rewrite HM. reflexivity.
      * rewrite HM. field. lra.
Qed.

Lemma predict_congestion_projection_witness :
  let m := {| Metrics.vessel_count := Some 52%Z;
              Metrics.wait_time_hours := Some 21.5;
              Metrics.capacity := None |} in
  ∃ p, predict_congestion 0 m 20 4 = Ok p
    ∧ Projection.hours_ahead p = 24%Z
    ∧ (0 <= Projection.projected_vessel_count p)%Z
    ∧ 0 <= Projection.projected_congestion_index p <= 1
    ∧ (4 <= 0 → Projection.projected_wait_hours p == 21.5 + 24)
    ∧ (0 < 4 → 0 <= Projection.projected_wait_hours p)
    ∧ (0 < 4 → inject_Z (52 + 20) <= 4 * 24 →
       Projection.projected_vessel_count p = 0%Z
       ∧ Projection.projected_wait_hours p == 0).
Proof.
  intros m.
  destruct (predict_congestion_projection 0 m 20 4) as (_ & _ & H).
  exact (H 52%Z 21.5 eq_refl eq_refl).
Defined.

End CongestionProperties.

(** ** The congestion inputs of a route *)

Section MainRoutesProperties.
Import PortTrafficPipeline MainRoutes.
Local Open Scope Q_scope.

Lemma endpoint_congestion_Ok (traffic : Traffic.t) v c w :
  Traffic.vessel_count traffic = Some v →
  Traffic.capacity traffic = Some c →
  Traffic.wait_time_hours traffic = Some w →
  endpoint_congestion traffic
  = Ok (CongestionAnalyzer.compute_congestion_index (inject_Z v) (inject_Z c)
          w None).
Proof. intros Hv Hc Hw. unfold endpoint_congestion. now rewrite Hv, Hc, Hw. Qed.

Lemma capacity_factor_mono (a b : Z) :
  (a <= b)%Z →
  Qmin 1.0 (inject_Z a / 50.0) <= Qmin 1.0 (inject_Z b / 50.0).
Proof.
  intros H. apply Qmin_1_mono, Qdiv_le_mono; [reflexivity|].
  now apply inject_Z_le.
Qed.

(** X4: for two endpoint traffic dicts that hold vessel count, capacity
    and waiting time, with non-negative counts and waits, [get_routes]
    builds a [congestion_data] within the documented ranges of the
    congestion scorer, so the congestion risk of the route lies in
    [0, 1]; its index is at least the index of either endpoint. *)
Theorem avg_congestion_data_in_domain (origin dest : Traffic.t)
    (vo co vd cd : Z) (wo wd : Q) :
  Traffic.vessel_count origin = Some vo → Traffic.capacity origin = Some co →
  Traffic.wait_time_hours origin = Some wo →
  Traffic.vessel_count dest = Some vd → Traffic.capacity dest = Some cd →
  Traffic.wait_time_hours dest = Some wd →
  (0 <= vo)%Z → (0 <= vd)%Z → 0 <= wo → 0 <= wd →
  ∃ data index,
    avg_congestion_data origin dest = Ok data
    ∧ Domain.congestion data
    ∧ 0 <= RiskScorer.compute_congestion_risk data <= 1
    ∧ RiskScorer.congestion_index data = Some index
    ∧ CongestionAnalyzer.compute_congestion_index (inject_Z vo) (inject_Z co)
        wo None <= index
    ∧ CongestionAnalyzer.compute_congestion_index (inject_Z vd) (inject_Z cd)
        wd None <= index.
Proof.
  intros Hvo Hco Hwo Hvd Hcd Hwd Pvo Pvd Pwo Pwd.
  unfold avg_congestion_data.
  rewrite (endpoint_congestion_Ok origin vo co wo Hvo Hco Hwo).
  rewrite (endpoint_congestion_Ok dest vd cd wd Hvd Hcd Hwd).
  rewrite Hvo, Hvd, Hwo, Hwd. cbn.
  set (io := CongestionAnalyzer.compute_congestion_index _ _ wo None).
  set (id := CongestionAnalyzer.compute_congestion_index _ _ wd None).
  pose proof (compute_congestion_index_range (inject_Z vo) (inject_Z co)
                wo None) as Hio.
  pose proof (compute_congestion_index_range (inject_Z vd) (inject_Z cd)
                wd None) as Hid.
  fold io in Hio. fold id in Hid.
  assert (HD : Domain.congestion
                 {| RiskScorer.congestion_index := Some (Qmax io id);
                    RiskScorer.wait_time_hours := Some (Qmax wo wd);
                    RiskScorer.vessel_count := Some ((vo + vd) `div` 2)%Z |}).
  { unfold Domain.congestion; cbn. split; [|split].
    - clearbody io id. q_minmax.
    - q_minmax.
    - apply Z.div_pos; lia. }
  eexists. exists (Qmax io id). split; [reflexivity|].
  split; [exact HD|]. split.
  - split; [now apply compute_congestion_risk_nonneg
           | apply compute_congestion_risk_le_1].
  - split; [reflexivity|]. split; [apply Q.le_max_l | apply Q.le_max_r].
Qed.

Lemma avg_congestion_data_in_domain_witness :
  let origin :=
    {| Traffic.port_id := Some "LAX"; Traffic.port_name := Some "Los Angeles";
       Traffic.vessel_count := Some 52%Z; Traffic.capacity := Some 100%Z;
       Traffic.wait_time_hours := Some 21.5;
       Traffic.congestion_index := Some 0.55;
       Traffic.timestamp := Some 0%Z;
       Traffic.latitude := Some 33.75; Traffic.longitude := Some (-118.25);
       Traffic.previous_vessel_count := None; Traffic.trend := None |} in
  let dest :=
    {| Traffic.port_id := Some "SHG"; Traffic.port_name := Some "Shanghai";
       Traffic.vessel_count := Some 61%Z; Traffic.capacity := Some 100%Z;
       Traffic.wait_time_hours := Some 40;
       Traffic.congestion_index := Some 0.78;
       Traffic.timestamp := Some 0%Z;
       Traffic.latitude := Some 31.23; Traffic.longitude := Some 121.47;
       Traffic.previous_vessel_count := None; Traffic.trend := None |} in
  ∃ data index,
    avg_congestion_data origin dest = Ok data
    ∧ Domain.congestion data
    ∧ 0 <= RiskScorer.compute_congestion_risk data <= 1
    ∧ RiskScorer.congestion_index data = Some index
    ∧ CongestionAnalyzer.compute_congestion_index 52 100 21.5 None <= index
    ∧ CongestionAnalyzer.compute_congestion_index 61 100 40 None <= index.
Proof.
  intros origin dest.
  apply (avg_congestion_data_in_domain origin dest 52 100 61 100 21.5 40);
    try reflexivity; vm_compute; discriminate.
Defined.

(** X5: on the same two traffic dicts, the congestion data of
    [get_route_details] (larger vessel count) never gives a lower
    congestion risk than the data of [get_routes] (floor of the average
    count); the two agree on the index and on the waiting time. *)
Theorem route_details_congestion_dominates (origin dest : Traffic.t)
    (listed detailed : RiskScorer.congestion_data) :
  avg_congestion_data origin dest = Ok listed →
  max_congestion_data origin dest = Ok detailed →
  RiskScorer.congestion_index listed = RiskScorer.congestion_index detailed
  ∧ RiskScorer.wait_time_hours listed = RiskScorer.wait_time_hours detailed
  ∧ RiskScorer.compute_congestion_risk listed
    <= RiskScorer.compute_congestion_risk detailed.
Proof.
  unfold avg_congestion_data, max_congestion_data, endpoint_congestion.
  destruct (Traffic.vessel_count origin) as [vo|]; cbn; [|discriminate].
  destruct (Traffic.capacity origin) as [co|]; cbn; [|discriminate].
  destruct (Traffic.wait_time_hours origin) as [wo|]; cbn; [|discriminate].
  destruct (Traffic.vessel_count dest) as [vd|]; cbn; [|discriminate].
  destruct (Traffic.capacity dest) as [cd|]; cbn; [|discriminate].
  destruct (Traffic.wait_time_hours dest) as [wd|]; cbn; [|discriminate].
  intros [= <-] [= <-]. cbn. split; [reflexivity|]. split; [reflexivity|].
  unfold RiskScorer.compute_congestion_risk; cbn.
  apply Qmin_1_mono.
  assert (Hdiv : ((vo + vd) `div` 2 <= Z.max vo vd)%Z)
    by (apply Z.div_le_upper_bound; lia).
  pose proof (capacity_factor_mono _ _ Hdiv). lra.
Qed.

Lemma route_details_congestion_dominates_witness :
  let origin :=
    {| Traffic.port_id := Some "LAX"; Traffic.port_name := Some "Los Angeles";
       Traffic.vessel_count := Some 20%Z; Traffic.capacity := Some 100%Z;
       Traffic.wait_time_hours := Some 21.5;
       Traffic.congestion_index := Some 0.55;
       Traffic.timestamp := Some 0%Z;
       Traffic.latitude := Some 33.75; Traffic.longitude := Some (-118.25);
       Traffic.previous_vessel_count := None; Traffic.trend := None |} in
  let dest :=
    {| Traffic.port_id := Some "SHG"; Traffic.port_name := Some "Shanghai";
       Traffic.vessel_count := Some 45%Z; Traffic.capacity := Some 100%Z;
       Traffic.wait_time_hours := Some 40;
       Traffic.congestion_index := Some 0.78;
       Traffic.timestamp := Some 0%Z;
       Traffic.latitude := Some 31.23; Traffic.longitude := Some 121.47;
       Traffic.previous_vessel_count := None; Traffic.trend := None |} in
  ∃ listed detailed,
    avg_congestion_data origin dest = Ok listed
    ∧ max_congestion_data origin dest = Ok detailed
    ∧ RiskScorer.vessel_count listed = Some 32%Z
    ∧ RiskScorer.vessel_count detailed = Some 45%Z
    ∧ RiskScorer.compute_congestion_risk listed
      <= RiskScorer.compute_congestion_risk detailed.
Proof.
  intros origin dest. do 2 eexists.
  split; [reflexivity|]. split; [reflexivity|].
  split; [reflexivity|]. split; [reflexivity|].
  eapply (route_details_congestion_dominates origin dest); reflexivity.
Defined.

(** X6: the bottleneck merge has no default for a weather dict without
    ['severity'], such as the [{}] that the orchestrator substitutes for
    a missing alert: it raises [KeyError], although the weather scorer
    itself scores such a dict as no risk. *)
Theorem worst_weather_missing_severity (origin dest : RiskScorer.weather_data) :
  (RiskScorer.severity origin = None →
   Main.worst_weather origin dest = Raise (KeyError "severity")
   ∧ RiskScorer.compute_weather_risk origin == 0)
  ∧ (is_Some (RiskScorer.severity origin) →
     RiskScorer.severity dest = None →
     Main.worst_weather origin dest = Raise (KeyError "severity")
     ∧ RiskScorer.compute_weather_risk dest == 0).
Proof.
  assert (Hzero : ∀ w, RiskScorer.severity w = None →
                       RiskScorer.compute_weather_risk w == 0).
  { intros w Hw. unfold RiskScorer.compute_weather_risk. rewrite Hw.
    change (default "none" None) with "none".
    assert (Hnone : RiskScorer.severity_map !! "none" = Some 0.0)
      by reflexivity.
    rewrite Hnone. unfold default at 1. cbn [from_option id].
    set (x := _ * _ * _). assert (x == 0) by (unfold x, id; ring).
    q_minmax. }
  split.
  - intros Ho. split; [|now apply Hzero].
    unfold Main.worst_weather. now rewrite Ho.
  - intros [so Ho] Hd. split; [|now apply Hzero].
    unfold Main.worst_weather. now rewrite Ho, Hd.
Qed.

Lemma worst_weather_missing_severity_witness :
  let empty := {| RiskScorer.severity := None; RiskScorer.type := None;
                  RiskScorer.duration_hours := None |} in
  let storm := {| RiskScorer.severity := Some "severe";
                  RiskScorer.type := Some "storm";
                  RiskScorer.duration_hours := Some 12 |} in
  (Main.worst_weather empty storm = Raise (KeyError "severity")
   ∧ RiskScorer.compute_weather_risk empty == 0)
  ∧ (Main.worst_weather storm empty = Raise (KeyError "severity")
     ∧ RiskScorer.compute_weather_risk empty == 0).
Proof.
  intros empty storm. split.
  - now apply (worst_weather_missing_severity empty storm).
  - apply (worst_weather_missing_severity storm empty); [by eexists | done].
Defined.

End MainRoutesProperties.

(** ** The scorer and the cascade, composed *)

Section ScoreAndCascadeProperties.
Import RiskScorer.
Local Open Scope Q_scope.





(** The level of an assessment, for a scorer built by [__init__]. *)
Lemma risk_level_cases a b c d s now route_id w sd cd h :
  __init__ a b c d = Ok s →
  let r := compute_route_risk s now route_id w sd cd h in
  (Assessment.risk_level r = "high" ∧ 0.7 <= Assessment.total_risk r)
  ∨ (Assessment.risk_level r = "medium"
     ∧ 0.4 <= Assessment.total_risk r < 0.7)
  ∨ (Assessment.risk_level r = "low" ∧ Assessment.total_risk r < 0.4).
Proof.
  intros Hs. apply __init___Ok in Hs as [_ ->]. cbn.
  set (total := _ + _ + _ + _).
  destruct (Qge_bool total 0.7) eqn:Hhi;
    [apply Qge_bool_true in Hhi | apply Qge_bool_false in Hhi].
  - left. split; [reflexivity | exact Hhi].
  - destruct (Qge_bool total 0.4) eqn:Hmed;
      [apply Qge_bool_true in Hmed | apply Qge_bool_false in Hmed].
    + right; left. split; [reflexivity | split; assumption].
    + right; right. split; [reflexivity | exact Hmed].
Qed.

(** The base delay that each variant computes for an assessment. *)
Lemma predict_route_base graph (r : Assessment.t) :
  ∃ d, predict_route graph (as_route_risk r) = Ok d
    ∧ Delay.base_delay d
      = if String.eqb (Assessment.risk_level r) "high"
        then 24 + (Assessment.total_risk r - 0.7) * 100
        else if String.eqb (Assessment.risk_level r) "medium"
             then 6 + (Assessment.total_risk r - 0.4) * 30
             else 0.
Proof.
  unfold predict_route, as_route_risk; cbn.
  destruct (String.eqb (Assessment.risk_level r) "high"); cbn.
  - destruct (graph_truthy graph) as [g|]; cbn;
      [destruct (g !! Assessment.route_id r)|]; cbn; eauto.
  - destruct (String.eqb (Assessment.risk_level r) "medium"); cbn;
      (destruct (graph_truthy graph) as [g|]; cbn;
       [destruct (g !! Assessment.route_id r)|]; cbn; eauto).
Qed.

Lemma forecast_route_base route_risks graph (r : Assessment.t) :
  TimeSeriesForecaster.Delay.base_delay
    (TimeSeriesForecaster.forecast_route route_risks graph (as_route_risk r))
  = if String.eqb (Assessment.risk_level r) "high"
    then 24 + (Assessment.total_risk r - 0.7) * 120
    else if String.eqb (Assessment.risk_level r) "medium"
         then 6 + (Assessment.total_risk r - 0.4) * 40
         else Assessment.total_risk r * 10.
Proof. reflexivity. Qed.

(** X8: for an assessment produced by [compute_route_risk], the scorer's
    base delay is 0 hours at level low, between 6 and 15 hours at level
    medium and at least 24 hours at level high; the forecaster's is
    below 4 hours, between 6 and 18 hours, and at least 24 hours. *)
Theorem base_delay_bands a b c d s now route_id w sd cd h route_risks graph :
  __init__ a b c d = Ok s →
  let r := compute_route_risk s now route_id w sd cd h in
  let forecast :=
    TimeSeriesForecaster.Delay.base_delay
      (TimeSeriesForecaster.forecast_route route_risks graph
         (as_route_risk r)) in
  ∃ dl, predict_route graph (as_route_risk r) = Ok dl
    ∧ (Assessment.risk_level r = "low" →
       Delay.base_delay dl == 0 ∧ forecast < 4)
    ∧ (Assessment.risk_level r = "medium" →
       6 <= Delay.base_delay dl < 15 ∧ 6 <= forecast < 18)
    ∧ (Assessment.risk_level r = "high" →
       24 <= Delay.base_delay dl ∧ 24 <= forecast).
Proof.
  intros Hs r forecast.
  destruct (predict_route_base graph r) as (dl & Hdl & Hbase).
  exists dl. split; [exact Hdl|].
  unfold forecast. rewrite forecast_route_base, Hbase.
  destruct (risk_level_cases a b c d s now route_id w sd cd h Hs)
    as [[Hl Ht] | [[Hl Ht] | [Hl Ht]]]; fold r in Hl, Ht; rewrite Hl;
    set (t := Assessment.total_risk r) in *; clearbody t; cbn;
    repeat split; intros; try discriminate; lra.
Qed.

Lemma base_delay_bands_witness :
  let congested :=
    {| congestion_index := Some 1; wait_time_hours := Some 48;
       vessel_count := Some 0%Z |} in
  let nothing := {| severity := None; type := None; duration_hours := None |} in
  let silent := {| sentiment_score := None; article_count := None;
                   urgency_keywords := None |} in
  ∃ s, __init__ 0 0 1 0 = Ok s
    ∧ let r := compute_route_risk s 0 "LAX-SHG" nothing silent congested
                 None in
      ∃ dl, predict_route None (as_route_risk r) = Ok dl
        ∧ 24 <= Delay.base_delay dl.
Proof.
  intros congested nothing silent. eexists. split; [reflexivity|].
  intros r.
  destruct (base_delay_bands 0 0 1 0 _ 0 "LAX-SHG" nothing silent congested
              None [] None eq_refl) as (dl & Hdl & _ & _ & Hhigh).
  exists dl. split; [exact Hdl|]. now apply Hhigh.
Defined.

(** X9: for two assessments produced by one scorer, the one with the
    higher total risk never gets the shorter base delay, in either
    variant; and for a non-negative total the forecaster's base delay is
    never below the scorer's. *)
Theorem base_delay_monotone_in_risk a b c d s
    now1 route1 w1 sd1 cd1 h1 now2 route2 w2 sd2 cd2 h2 route_risks graph :
  __init__ a b c d = Ok s →
  let r1 := compute_route_risk s now1 route1 w1 sd1 cd1 h1 in
  let r2 := compute_route_risk s now2 route2 w2 sd2 cd2 h2 in
  let forecast r :=
    TimeSeriesForecaster.Delay.base_delay
      (TimeSeriesForecaster.forecast_route route_risks graph
         (as_route_risk r)) in
  ∃ d1 d2,
    predict_route graph (as_route_risk r1) = Ok d1
    ∧ predict_route graph (as_route_risk r2) = Ok d2
    ∧ (Assessment.total_risk r1 <= Assessment.total_risk r2 →
       Delay.base_delay d1 <= Delay.base_delay d2
       ∧ forecast r1 <= forecast r2)
    ∧ (0 <= Assessment.total_risk r1 → Delay.base_delay d1 <= forecast r1).
Proof.
  intros Hs r1 r2 forecast.
  destruct (predict_route_base graph r1) as (d1 & Hd1 & Hb1).
  destruct (predict_route_base graph r2) as (d2 & Hd2 & Hb2).
  exists d1, d2. split; [exact Hd1|]. split; [exact Hd2|].
  unfold forecast. rewrite !forecast_route_base, Hb1, Hb2.
  destruct (risk_level_cases a b c d s now1 route1 w1 sd1 cd1 h1 Hs)
    as [[Hl1 Ht1] | [[Hl1 Ht1] | [Hl1 Ht1]]]; fold r1 in Hl1, Ht1;
    rewrite Hl1;
    (destruct (risk_level_cases a b c d s now2 route2 w2 sd2 cd2 h2 Hs)
       as [[Hl2 Ht2] | [[Hl2 Ht2] | [Hl2 Ht2]]]; fold r2 in Hl2, Ht2;
     rewrite Hl2;
     set (t1 := Assessment.total_risk r1) in *;
     set (t2 := Assessment.total_risk r2) in *; clearbody t1 t2; cbn;
     repeat split; intros; lra).
Qed.

Lemma base_delay_monotone_in_risk_witness :
  let congested (index : Q) :=
    {| congestion_index := Some index; wait_time_hours := Some 48;
       vessel_count := Some 0%Z |} in
  let nothing := {| severity := None; type := None; duration_hours := None |} in
  let silent := {| sentiment_score := None; article_count := None;
                   urgency_keywords := None |} in
  ∃ s, __init__ 0 0 1 0 = Ok s
    ∧ let r1 := compute_route_risk s 0 "LAX-SHG" nothing silent
                  (congested 0.4) None in
      let r2 := compute_route_risk s 0 "SHG-SGP" nothing silent
                  (congested 1) None in
      ∃ d1 d2,
        predict_route None (as_route_risk r1) = Ok d1
        ∧ predict_route None (as_route_risk r2) = Ok d2
        ∧ Delay.base_delay d1 <= Delay.base_delay d2.
Proof.
  intros congested nothing silent. eexists. split; [reflexivity|].
  intros r1 r2.
  destruct (base_delay_monotone_in_risk 0 0 1 0 _
              0 "LAX-SHG" nothing silent (congested 0.4) None
              0 "SHG-SGP" nothing silent (congested 1) None [] None eq_refl)
    as (d1 & d2 & H1 & H2 & Hmono & _).
  exists d1, d2. split; [exact H1|]. split; [exact H2|].
  apply Hmono. vm_compute. discriminate.
Defined.



(** X11: with the article and keyword counts fixed and non-negative, a
    lower (more negative) sentiment score never gives a lower sentiment
    risk. *)
Theorem sentiment_risk_antitone (score1 score2 : Q) (articles keywords : Z) :
  (0 <= articles)%Z → (0 <= keywords)%Z → score1 <= score2 →
  compute_sentiment_risk
    {| sentiment_score := Some score2; article_count := Some articles;
       urgency_keywords := Some keywords |}
  <= compute_sentiment_risk
       {| sentiment_score := Some score1; article_count := Some articles;
          urgency_keywords := Some keywords |}.
Proof.
  intros Ha Hk Hs. unfold compute_sentiment_risk; cbn.
  apply Qmin_1_mono.
  assert (H10 : 0 < 10.0) by reflexivity.
  assert (H5 : 0 < 5.0) by reflexivity.
  pose proof (count_factor_range _ 10.0 Ha H10) as Hv.
  pose proof (count_factor_range _ 5.0 Hk H5) as Hu.
  set (f := 0.6 + 0.2 * _ + 0.2 * _).
  assert (Hf : 0 <= f) by (unfold f; lra). clearbody f.
  apply Qmult_le_compat_r; [|exact Hf].
  apply Qdiv_le_mono; [reflexivity | lra].
Qed.

Lemma sentiment_risk_antitone_witness :
  compute_sentiment_risk
    {| sentiment_score := Some 0.4; article_count := Some 6%Z;
       urgency_keywords := Some 2%Z |}
  <= compute_sentiment_risk
       {| sentiment_score := Some (-0.7); article_count := Some 6%Z;
          urgency_keywords := Some 2%Z |}.
Proof.
  apply sentiment_risk_antitone; vm_compute; discriminate.
Defined.

End ScoreAndCascadeProperties.

(** ** The traffic pipeline: cache and history *)

Section TrafficCacheProperties.
Import PortTrafficPipeline.
Local Open Scope Z_scope.

Lemma _load_cache_save fs now port_id data :
  _load_cache (_save_cache fs now port_id data) port_id
  = Some {| Cache.timestamp := Some now; Cache.data := Some data |}.
Proof. unfold _load_cache, _save_cache; cbn. now rewrite lookup_insert_eq. Qed.

Lemma check_cache_hit self fs now port_id cache_data data :
  _load_cache fs port_id = Some cache_data →
  _is_cache_valid self now cache_data = true →
  Cache.data cache_data = Some data →
  check_cache self fs now port_id false = Some (Ok data).
Proof.
  intros Hload Hvalid Hdata. unfold check_cache.
  assert (Hex : is_Some (cache_files fs !! port_id)).
  { unfold _load_cache in Hload.
    destruct (cache_files fs !! port_id); [by eexists | discriminate]. }
  rewrite (bool_decide_eq_true_2 _ Hex), Hload, Hvalid. cbn.
  unfold Cache.truthy. rewrite Hdata.
  rewrite (bool_decide_eq_true_2 (is_Some (Some data))) by (by eexists).
  now rewrite orb_true_r.
Qed.


(** X12: a value that [ingest_port_traffic] has just generated at time
    [t] is what every later unforced ingest of the port returns, without
    writing anything and whatever the simulator would generate, as long
    as less than the cache duration has elapsed since [t]; from then on
    an unforced ingest regenerates. *)
Theorem ingest_then_read_back (self : t) (fs fs' : files) (t : Z)
    (generated : Traffic.t) (port_id : string) (force_refresh : bool)
    (value : Traffic.t) :
  check_cache self fs t port_id force_refresh = None →
  ingest_port_traffic self fs t generated port_id force_refresh
  = (Ok value, fs') →
  (∀ t' generated', t' - t < cache_duration self →
     ingest_port_traffic self fs' t' generated' port_id false
     = (Ok value, fs'))
  ∧ (∀ t', cache_duration self <= t' - t →
       check_cache self fs' t' port_id false = None).
Proof.
  intros Hregen Hingest. unfold ingest_port_traffic in Hingest.
  rewrite Hregen in Hingest.
  destruct (add_historical_context fs port_id generated) as [td|e];
    [|discriminate].
  injection Hingest as <- <-.
  split.
  - intros t' generated' Ht. unfold ingest_port_traffic.
    rewrite (check_cache_hit self _ t' port_id _ td
               (_load_cache_save fs t port_id td)); [reflexivity| |reflexivity].
    unfold _is_cache_valid; cbn. now apply Z.ltb_lt.
  - intros t' Ht.
    apply (check_cache_expired self _ t' port_id false _
             (_load_cache_save fs t port_id td)).
    unfold _is_cache_valid; cbn. now apply Z.ltb_ge.
Qed.

Lemma ingest_then_read_back_witness :
  let generated :=
    {| Traffic.port_id := Some "LAX"; Traffic.port_name := Some "Los Angeles";
       Traffic.vessel_count := Some 52; Traffic.capacity := Some 100;
       Traffic.wait_time_hours := Some 21.5%Q;
       Traffic.congestion_index := Some 0.55%Q;
       Traffic.timestamp := Some 1000000000;
       Traffic.latitude := Some 33.75%Q;
       Traffic.longitude := Some (-118.25)%Q;
       Traffic.previous_vessel_count := None; Traffic.trend := None |} in
  let fs := {| cache_files := ∅; history_files := ∅ |} in
  let fs' := _save_cache fs 1000000000 "LAX" generated in
  ingest_port_traffic __init__ fs' 1299000000 Traffic.empty_dict "LAX" false
  = (Ok generated, fs')
  ∧ check_cache __init__ fs' 1300000000 "LAX" false = None.
Proof.
  intros generated fs fs'.
  destruct (ingest_then_read_back __init__ fs fs' 1000000000 generated "LAX"
              false generated eq_refl eq_refl) as [Hhit Hmiss].
  split; [apply Hhit | apply Hmiss]; reflexivity.
Defined.





(** X15: a cache file that holds a timestamp but no ['data'] is not
    treated as a miss: every ingest of the port, forced or not, valid or
    expired, raises [KeyError] on ['data'] and leaves the file in place. *)
Theorem ingest_over_entry_without_data (self : t) (fs : files) (now c : Z)
    (generated : Traffic.t) (port_id : string) (force_refresh : bool) :
  cache_files fs !! port_id
  = Some (Stored {| Cache.timestamp := Some c; Cache.data := None |}) →
  ingest_port_traffic self fs now generated port_id force_refresh
  = (Raise (KeyError "data"), fs).
Proof.
  intros Hc. unfold ingest_port_traffic, check_cache, add_historical_context,
    _load_cache. rewrite Hc.
  rewrite (bool_decide_eq_true_2 (is_Some (Some _))) by (by eexists).
  cbn. destruct force_refresh; cbn; [reflexivity|].
  unfold _is_cache_valid; cbn. now destruct (now - c <? cache_duration self).
Qed.

Lemma ingest_over_entry_without_data_witness :
  let fs :=
    {| cache_files :=
         {[ "LAX" := Stored {| Cache.timestamp := Some 0;
                               Cache.data := None |} ]};
       history_files := ∅ |} in
  ingest_port_traffic __init__ fs 5 Traffic.empty_dict "LAX" true
  = (Raise (KeyError "data"), fs).
Proof.
  intros fs.
  exact (ingest_over_entry_without_data __init__ fs 5 0 Traffic.empty_dict
           "LAX" true eq_refl).
Defined.

(** X16: [get_port_history] returns, in file order, exactly the entries
    of the port's history file that are at most [hours] old, and the
    empty list when there is no file; right after [update_port_history],
    a query over 168 hours returns the whole file that was written. *)
Theorem get_port_history_window (fs : files) (now : Z) (port_id : string)
    (hours : Z) :
  (history_files fs !! port_id = None →
   get_port_history fs now port_id hours = [])
  ∧ (∀ history, history_files fs !! port_id = Some history →
       get_port_history fs now port_id hours `sublist_of` history
       ∧ ∀ entry, entry ∈ get_port_history fs now port_id hours
           ↔ entry ∈ history
             ∧ now - timedelta_hours hours <= History.timestamp entry)
  ∧ (∀ traffic_data,
       let fs' := update_port_history fs now port_id traffic_data in
       Some (get_port_history fs' now port_id 168)
       = history_files fs' !! port_id).
Proof.
  split; [|split].
  - intros H. unfold get_port_history. now rewrite H.
  - intros history H. unfold get_port_history. rewrite H. split.
    + apply sublist_filter.
    + intros entry. rewrite list_elem_of_filter. split.
      * intros [Hge Hin]. split; [exact Hin | lia].
      * intros [Hin Hge]. split; [lia | exact Hin].
  - intros traffic_data fs'.
    unfold get_port_history, fs', update_port_history. cbn.
    rewrite lookup_insert_eq. f_equal.
    change (timedelta_hours 168) with (days 7).
    apply list_filter_filter_l. intros entry. lia.
Qed.

End TrafficCacheProperties.

Section IngestAllPortsProperties.
Import PortTrafficPipeline.
Local Open Scope Z_scope.

Lemma get_port_history_window_witness :
  let fs := {| cache_files := ∅; history_files := ∅ |} in
  let fs' := update_port_history fs 1000 "LAX" Traffic.empty_dict in
  get_port_history fs 1000 "LAX" 24 = []
  ∧ Some (get_port_history fs' 1000 "LAX" 168) = history_files fs' !! "LAX".
Proof.
  intros fs fs'.
  destruct (get_port_history_window fs 1000 "LAX" 24) as (Hnone & _ & _).
  destruct (get_port_history_window fs 1000 "LAX" 168) as (_ & _ & Hround).
  split; [apply Hnone; reflexivity | apply Hround].
Defined.

(** A port whose cache entry is valid at [now] and holds [value]. *)
Lemma ingest_ports_cached self fs now generate port_ids :
  (∀ port_id, port_id ∈ port_ids →
     ∃ cache_data value,
       _load_cache fs port_id = Some cache_data
       ∧ _is_cache_valid self now cache_data = true
       ∧ Cache.data cache_data = Some value) →
  ∃ values,
    ingest_ports self fs now generate port_ids = (Ok values, fs)
    ∧ Forall2 (λ port_id value,
                 ∃ cache_data, _load_cache fs port_id = Some cache_data
                               ∧ Cache.data cache_data = Some value)
              port_ids values.
Proof.
  induction port_ids as [|p ps IH]; intros Hall.
  - exists []. split; [reflexivity | constructor].
  - destruct (Hall p) as (cd & v & Hload & Hvalid & Hdata); [left|].
    destruct IH as (vs & Hvs & HF).
    { intros q Hq. apply Hall. now right. }
    exists (v :: vs). split.
    + cbn. unfold ingest_port_traffic.
      rewrite (check_cache_hit self fs now p cd v Hload Hvalid Hdata).
      now rewrite Hvs.
    + constructor; [eauto | exact HF].
Qed.

(** X17: [ingest_all_ports] never forces a refresh.  When every port of
    the simulator has a valid cache entry, it returns the ten cached
    values in port order and writes nothing, whatever the simulator
    would generate. *)
Theorem ingest_all_ports_uses_valid_caches (self : t) (fs : files) (now : Z)
    (generate : string → Traffic.t) :
  (∀ port_id,
     port_id ∈ map DataSimulator.Port.id DataSimulator.ports →
     ∃ cache_data value,
       _load_cache fs port_id = Some cache_data
       ∧ _is_cache_valid self now cache_data = true
       ∧ Cache.data cache_data = Some value) →
  ∃ values,
    ingest_all_ports self fs now generate = (Ok values, fs)
    ∧ length values = 10%nat
    ∧ Forall2 (λ port_id value,
                 ∃ cache_data, _load_cache fs port_id = Some cache_data
                               ∧ Cache.data cache_data = Some value)
              (map DataSimulator.Port.id DataSimulator.ports) values.
Proof.
  intros Hall.
  destruct (ingest_ports_cached self fs now generate _ Hall)
    as (values & Hv & HF).
  exists values. split; [exact Hv|]. split; [|exact HF].
  apply Forall2_length in HF. rewrite <- HF. reflexivity.
Qed.

Lemma ingest_all_ports_uses_valid_caches_witness :
  let cached (port_id : string) :=
    {| Traffic.port_id := Some port_id; Traffic.port_name := None;
       Traffic.vessel_count := Some 40; Traffic.capacity := Some 100;
       Traffic.wait_time_hours := Some 12%Q;
       Traffic.congestion_index := Some 0.3%Q;
       Traffic.timestamp := Some 0;
       Traffic.latitude := None; Traffic.longitude := None;
       Traffic.previous_vessel_count := None; Traffic.trend := None |} in
  let fs :=
    foldr (λ port_id fs, _save_cache fs 0 port_id (cached port_id))
          {| cache_files := ∅; history_files := ∅ |}
          (map DataSimulator.Port.id DataSimulator.ports) in
  ∃ values,
    ingest_all_ports __init__ fs 1000 (λ _, Traffic.empty_dict)
    = (Ok values, fs)
    ∧ length values = 10%nat.
Proof.
  intros cached fs.
  destruct (ingest_all_ports_uses_valid_caches __init__ fs 1000
              (λ _, Traffic.empty_dict)) as (values & Hv & Hlen & _).
  - intros port_id Hin.
    repeat (apply elem_of_cons in Hin as [->|Hin];
            [eexists _, _; split; [reflexivity|]; split; reflexivity|]).
    inversion Hin.
  - exists values. split; [exact Hv | exact Hlen].
Defined.

End IngestAllPortsProperties.

(** ** The route table of the simulator *)

Section RouteTableProperties.
Import DataSimulator.
Implicit Types dist : Q → Q → Q → Q → Q.

Lemma routes_from_spec dist (ports : list Port.t) (r : Route.t) :
  r ∈ routes_from dist ports ↔
  ∃ i j p q, (i < j)%nat ∧ ports !! i = Some p ∧ ports !! j = Some q
             ∧ r = make_route dist p q.
Proof.
  revert r. induction ports as [|o rest IH]; intros r; cbn.
  - split; [intros H; inversion H | intros (i & j & p & q & _ & H & _)].
    destruct i; discriminate.
  - rewrite elem_of_app, IH. split.
    + intros [Hin | (i & j & p & q & Hij & Hp & Hq & ->)].
      * apply list_elem_of_In, in_map_iff in Hin as (q & <- & Hq).
        apply list_elem_of_In, list_elem_of_lookup in Hq as [j Hj].
        exists 0%nat, (S j), o, q. repeat split; [lia | exact Hj].
      * exists (S i), (S j), p, q. repeat split; [lia | assumption..].
    + intros (i & j & p & q & Hij & Hp & Hq & ->).
      destruct j as [|j]; [lia|]. cbn in Hq.
      destruct i as [|i]; cbn in Hp.
      * injection Hp as ->. left.
        apply list_elem_of_In, in_map_iff. exists q. split; [reflexivity|].
        apply list_elem_of_In, list_elem_of_lookup. eauto.
      * right. exists i, j, p, q. repeat split; [lia | assumption..].
Qed.

Lemma routes_from_length dist (ports : list Port.t) :
  (2 * length (routes_from dist ports)
   = length ports * (length ports - 1))%nat.
Proof.
  induction ports as [|o rest IH]; [reflexivity|].
  cbn [routes_from]. rewrite length_app, length_map. cbn [length]. nia.
Qed.

Lemma lookup_id_inj (ports : list Port.t) i j p q :
  NoDup (map Port.id ports) →
  ports !! i = Some p → ports !! j = Some q → Port.id p = Port.id q → i = j.
Proof.
  intros Hnd Hp Hq Heq.
  apply (NoDup_lookup (map Port.id ports) i j (Port.id p)); [exact Hnd | |].
  - change (map Port.id ports) with (Port.id <$> ports).
    now rewrite list_lookup_fmap, Hp.
  - change (map Port.id ports) with (Port.id <$> ports).
    now rewrite list_lookup_fmap, Hq, Heq.
Qed.

Lemma routes_from_endpoints_NoDup dist (ports : list Port.t) :
  NoDup (map Port.id ports) → NoDup (map (λ r, (Route.origin r, Route.destination r)) (routes_from dist ports)).
Proof.
  induction ports as [|o rest IH]; intros Hnd; [constructor|].
  cbn [routes_from map] in *. apply NoDup_cons in Hnd as [Ho Hnd].
  rewrite map_app. apply NoDup_app. split; [|split].
  - rewrite map_map. cbn.
    change (map (λ x, (Port.id o, Port.id x)) rest)
      with (map (pair (Port.id o)) (map Port.id rest)) || idtac.
    rewrite <- (map_map Port.id (pair (Port.id o))).
    change (map (pair (Port.id o)) (map Port.id rest))
      with (pair (Port.id o) <$> map Port.id rest).
    apply NoDup_fmap_2; [|exact Hnd]. intros a b [= ->]. reflexivity.
  - intros e He1 He2.
    apply list_elem_of_In, in_map_iff in He1 as (r1 & <- & Hr1).
    apply in_map_iff in Hr1 as (q & <- & _).
    apply list_elem_of_In, in_map_iff in He2 as (r2 & Heq & Hr2).
    apply list_elem_of_In, routes_from_spec in Hr2
      as (i & j & p & q' & _ & Hp & _ & ->).
    cbn in Heq. injection Heq as Heq _.
    apply Ho. rewrite <- Heq.
    apply list_elem_of_In, in_map_iff. exists p. split; [reflexivity|].
    apply list_elem_of_In, list_elem_of_lookup. eauto.
  - now apply IH.
Qed.

(** X18: over a port table with pairwise distinct identifiers, the
    simulator builds one route for every pair of ports and no other:
    n(n-1)/2 routes, each from a port to a different, later port of the
    table, with the identifier "origin-destination"; no two routes join
    the same ordered pair, and no route is the reverse of another. *)
Theorem routes_from_pairs dist (ports : list Port.t) :
  NoDup (map Port.id ports) →
  let routes := routes_from dist ports in
  (2 * length routes = length ports * (length ports - 1))%nat
  ∧ (∀ r, r ∈ routes →
       Route.origin r ≠ Route.destination r
       ∧ Route.route_id r = Route.origin r ++ "-" ++ Route.destination r
       ∧ Route.origin r ∈ map Port.id ports
       ∧ Route.destination r ∈ map Port.id ports)
  ∧ (∀ p q, p ∈ ports → q ∈ ports → Port.id p ≠ Port.id q →
       make_route dist p q ∈ routes ∨ make_route dist q p ∈ routes)
  ∧ NoDup (map (λ r, (Route.origin r, Route.destination r)) routes)
  ∧ (∀ r1 r2, r1 ∈ routes → r2 ∈ routes →
       ¬ (Route.origin r1 = Route.destination r2
          ∧ Route.destination r1 = Route.origin r2)).
Proof.
  intros Hnd routes. split; [apply routes_from_length|].
  assert (Hid : ∀ i p, ports !! i = Some p → Port.id p ∈ map Port.id ports).
  { intros i p Hp. apply list_elem_of_In, in_map_iff. exists p.
    split; [reflexivity|]. apply list_elem_of_In, list_elem_of_lookup. eauto. }
  split; [|split; [|split]].
  - intros r Hr. apply routes_from_spec in Hr
      as (i & j & p & q & Hij & Hp & Hq & ->). cbn.
    split; [|split; [reflexivity | split; eauto]].
    intros Heq. pose proof (lookup_id_inj ports i j p q Hnd Hp Hq Heq). lia.
  - intros p q Hp Hq Hne.
    apply list_elem_of_lookup in Hp as [i Hi].
    apply list_elem_of_lookup in Hq as [j Hj].
    destruct (Nat.lt_trichotomy i j) as [Hlt | [-> | Hgt]].
    + left. apply routes_from_spec. exists i, j, p, q. auto.
    + congruence.
    + right. apply routes_from_spec. exists j, i, q, p. auto.
  - now apply routes_from_endpoints_NoDup.
  - intros r1 r2 Hr1 Hr2 [H1 H2].
    apply routes_from_spec in Hr1 as (i & j & p & q & Hij & Hp & Hq & ->).
    apply routes_from_spec in Hr2 as (k & l & p' & q' & Hkl & Hp' & Hq' & ->).
    cbn in H1, H2.
    pose proof (lookup_id_inj ports i l p q' Hnd Hp Hq' H1).
    pose proof (lookup_id_inj ports j k q p' Hnd Hq Hp' H2). lia.
Qed.

(** The table of the simulator: ten distinct ports, hence 45 routes,
    whose identifiers are pairwise distinct. *)
Lemma simulator_port_ids_NoDup : NoDup (map Port.id ports).
Proof. apply (bool_decide_unpack _). vm_compute. exact I. Qed.

Lemma simulator_route_ids_NoDup dist :
  length (routes dist) = 45%nat ∧ NoDup (map Route.route_id (routes dist)).
Proof.
  split; [reflexivity|]. apply (bool_decide_unpack _). vm_compute. exact I.
Qed.

Lemma routes_from_pairs_witness :
  let dist := λ lat1 lon1 lat2 lon2 : Q, 0%Q in
  (2 * length (routes dist) = 10 * 9)%nat
  ∧ NoDup (map (λ r, (Route.origin r, Route.destination r)) (routes dist)).
Proof.
  intros dist.
  destruct (routes_from_pairs dist ports simulator_port_ids_NoDup)
    as (Hlen & _ & _ & Hnd & _).
  split; [exact Hlen | exact Hnd].
Defined.

End RouteTableProperties.

(** ** The sentiment analyzer *)

Section SentimentProperties.
Import SentimentAnalyzer.
Local Open Scope Q_scope.
Implicit Types (lower : string → string) (contains : string → string → bool).

Lemma count_words_range contains words text :
  (0 <= count_words contains words text <= Z.of_nat (length words))%Z.
Proof.
  unfold count_words. split; [lia|].
  apply inj_le, length_filter.
Qed.

Lemma Qlt_bool_true (a b : Q) : Qlt_bool a b = true ↔ a < b.
Proof.
  unfold Qlt_bool. rewrite negb_true_iff, <- not_true_iff_false, Qle_bool_iff.
  split; [apply Qnot_le_lt | apply Qlt_not_le].
Qed.

Lemma Qlt_bool_false (a b : Q) : Qlt_bool a b = false ↔ b <= a.
Proof. unfold Qlt_bool. rewrite negb_false_iff. apply Qle_bool_iff. Qed.

Lemma analyze_text_score_range lower contains (text : string) :
  -1 <= TextAnalysis.sentiment_score (analyze_text lower contains text) <= 1.
Proof.
  unfold analyze_text; cbn [TextAnalysis.sentiment_score].
  set (raw := if (_ >? _)%Z then _ else _). clearbody raw. q_minmax.
Qed.

(** X19: [analyze_text] returns a score in [-1, 1], and its label is
    decided by the two word counts alone: 'negative' exactly when more
    negative than positive words occur, 'positive' exactly when more
    positive than negative ones occur, 'neutral' exactly on a tie, where
    the score is 0.  No text gets a score strictly between -0.6 and 0 or
    strictly between 0 and 0.4. *)
Theorem analyze_text_label lower contains (text : string) :
  let analysis := analyze_text lower contains text in
  let score := TextAnalysis.sentiment_score analysis in
  let negatives := negative_count lower contains text in
  let positives := positive_count lower contains text in
  -1 <= score <= 1
  ∧ (TextAnalysis.label analysis = "negative"
     ↔ (positives < negatives)%Z)
  ∧ (TextAnalysis.label analysis = "positive"
     ↔ (negatives < positives)%Z)
  ∧ (TextAnalysis.label analysis = "neutral" ↔ negatives = positives)
  ∧ ((positives < negatives)%Z → score <= -0.6)
  ∧ ((negatives < positives)%Z → 0.4 <= score)
  ∧ (negatives = positives → score == 0).
Proof.
  intros analysis score negatives positives.
  pose proof (count_words_range contains negative_words (lower text)) as Hn.
  pose proof (count_words_range contains positive_words (lower text)) as Hp.
  change (count_words contains negative_words (lower text))
    with negatives in Hn.
  change (count_words contains positive_words (lower text))
    with positives in Hp.
  cbn in Hn, Hp.
  assert (HnQ : 0 <= inject_Z negatives <= 6).
  { split; [change 0 with (inject_Z 0) | change 6 with (inject_Z 6)];
      rewrite <- Zle_Qle; lia. }
  assert (HpQ : 0 <= inject_Z positives <= 5).
  { split; [change 0 with (inject_Z 0) | change 5 with (inject_Z 5)];
      rewrite <- Zle_Qle; lia. }
  assert (Hn1 : (1 <= negatives)%Z → 1 <= inject_Z negatives).
  { intros H. change 1 with (inject_Z 1). now rewrite <- Zle_Qle. }
  assert (Hp1 : (1 <= positives)%Z → 1 <= inject_Z positives).
  { intros H. change 1 with (inject_Z 1). now rewrite <- Zle_Qle. }
  unfold score, analysis, analyze_text.
  fold negatives positives. cbn [TextAnalysis.sentiment_score TextAnalysis.label].
  set (qn := inject_Z negatives) in *. set (qp := inject_Z positives) in *.
  destruct (Z.gtb_spec negatives positives) as [Hgt|Hle].
  - assert (1 <= qn) by (apply Hn1; lia).
    set (s := Qmax (-1.0) (Qmin 1.0 (-0.5 - qn * 0.1))).
    assert (Hs : -1 <= s <= -0.6) by (unfold s; clearbody qn qp; q_minmax).
    clearbody s.
    assert (Hl : Qlt_bool s (-0.3) = true) by (apply Qlt_bool_true; lra).
    rewrite Hl.
    repeat split; intros; try discriminate; try lia; try lra.
  - destruct (Z.gtb_spec positives negatives) as [Hgt|Hle'].
    + assert (1 <= qp) by (apply Hp1; lia).
      set (s := Qmax (-1.0) (Qmin 1.0 (0.3 + qp * 0.1))).
      assert (Hs : 0.4 <= s <= 1) by (unfold s; clearbody qn qp; q_minmax).
      clearbody s.
      assert (Hl : Qlt_bool s (-0.3) = false) by (apply Qlt_bool_false; lra).
      assert (Hg : Qgt_bool s 0.3 = true) by (apply Qgt_bool_true; lra).
      rewrite Hl, Hg.
      repeat split; intros; try discriminate; try lia; try lra.
    + repeat split; intros; try discriminate; try lia; try reflexivity.
Qed.

Lemma mean_bounds (lo hi : Q) (xs : list Q) :
  xs ≠ [] → Forall (λ x, lo <= x <= hi) xs → lo <= mean xs <= hi.
Proof.
  intros Hne HF. unfold mean.
  assert (Hsum : inject_Z (Z.of_nat (length xs)) * lo <= foldr Qplus 0 xs
                 ∧ foldr Qplus 0 xs <= inject_Z (Z.of_nat (length xs)) * hi).
  { clear Hne. induction HF as [|x xs [Hlo Hhi] _ [IHlo IHhi]].
    - cbn [foldr length]. change (inject_Z (Z.of_nat 0)) with 0. split; lra.
    - cbn [foldr length]. rewrite Nat2Z.inj_succ. unfold Z.succ.
      rewrite inject_Z_plus. change (inject_Z 1) with 1. split; lra. }
  assert (Hn : 0 < inject_Z (Z.of_nat (length xs))).
  { change 0 with (inject_Z 0). rewrite <- Zlt_Qlt.
    destruct xs; [congruence | cbn; lia]. }
  destruct Hsum as [Hlo Hhi]. split.
  - apply Qle_shift_div_l; [exact Hn | lra].
  - apply Qle_shift_div_r; [exact Hn | lra].
Qed.

Lemma urgency_total_range lower contains (articles : list Article.t) (acc : Z) :
  (acc <= fold_left
            (λ total article,
               total + count_words contains urgency_keywords
                         (lower (article_text article)))
            articles acc
       <= acc + 20 * Z.of_nat (length articles))%Z.
Proof.
  revert acc. induction articles as [|a articles IH]; intros acc.
  - cbn. lia.
  - cbn [fold_left length].
    pose proof (count_words_range contains urgency_keywords
                  (lower (article_text a))) as Hc.
    cbn in Hc.
    specialize (IH (acc + count_words contains urgency_keywords
                            (lower (article_text a)))%Z).
    lia.
Qed.

(** X20: whatever the articles, the analysis of [analyze_articles] lies
    within the documented ranges of the sentiment scorer (mean score in
    [-1, 1], counts non-negative), so the sentiment risk computed from
    it is in [0, 1]; the article count is the length of the list, the
    keyword total is at most 20 per article, and the empty list gives
    score 0 with both counts 0. *)
Theorem analyze_articles_in_domain lower contains (now : Z)
    (articles : list Article.t) :
  let analysis := analyze_articles lower contains now articles in
  Domain.sentiment (as_sentiment_data analysis)
  ∧ 0 <= RiskScorer.compute_sentiment_risk (as_sentiment_data analysis) <= 1
  ∧ Analysis.article_count analysis = Z.of_nat (length articles)
  ∧ (0 <= Analysis.urgency_keywords analysis
     <= 20 * Z.of_nat (length articles))%Z
  ∧ (articles = [] → Analysis.sentiment_score analysis == 0).
Proof.
  intros analysis.
  assert (HD : Domain.sentiment (as_sentiment_data analysis)
               ∧ Analysis.article_count analysis = Z.of_nat (length articles)
               ∧ (0 <= Analysis.urgency_keywords analysis
                  <= 20 * Z.of_nat (length articles))%Z
               ∧ (articles = [] → Analysis.sentiment_score analysis == 0)).
  { unfold analysis. destruct articles as [|a rest].
    - cbn. unfold Domain.sentiment; cbn.
      repeat split; try lia; try lra; try reflexivity.
    - set (articles := a :: rest).
      unfold analyze_articles. fold articles.
      change (match articles with [] => _ | _ :: _ => ?X end) with X.
      unfold Domain.sentiment;
        cbn [as_sentiment_data Analysis.sentiment_score Analysis.article_count
             Analysis.urgency_keywords RiskScorer.sentiment_score
             RiskScorer.article_count RiskScorer.urgency_keywords default
             from_option id].
      pose proof (urgency_total_range lower contains articles 0) as Hu.
      assert (Hm : -1 <= mean (map (λ article,
                     TextAnalysis.sentiment_score
                       (analyze_text lower contains (article_text article)))
                     articles) <= 1).
      { apply mean_bounds; [discriminate|].
        apply Forall_forall. intros x Hx.
        apply list_elem_of_In, in_map_iff in Hx as (art & <- & _).
        apply analyze_text_score_range. }
      split; [split; [exact Hm | split; lia]|].
      split; [reflexivity|]. split; [lia | discriminate]. }
  destruct HD as (HD & Hc & Hu & He).
  split; [exact HD|]. split.
  - split; [now apply compute_sentiment_risk_nonneg
           | apply compute_sentiment_risk_le_1].
  - auto.
Qed.

End SentimentProperties.

(** ** The series functions of the forecaster *)

Section SeriesProperties.
Import TimeSeriesForecaster.
Local Open Scope Q_scope.




Lemma np_sum_map_ext {A} (f g : A → Q) (l : list A) :
  (∀ a, f a == g a) → np_sum (map f l) == np_sum (map g l).
Proof.
  intros H. induction l as [|a l IH]; cbn; [reflexivity|].
  rewrite (H a). unfold np_sum in IH. now rewrite IH.
Qed.

Lemma np_sum_map_scale {A} (c : Q) (f : A → Q) (l : list A) :
  np_sum (map (λ a, c * f a) l) == c * np_sum (map f l).
Proof.
  induction l as [|a l IH]; cbn; [ring|].
  unfold np_sum in IH. rewrite IH. ring.
Qed.

Lemma np_sum_map_affine (a b : Q) (l : list Q) :
  np_sum (map (λ x, a + b * x) l)
  == inject_Z (Z.of_nat (length l)) * a + b * np_sum l.
Proof.
  induction l as [|x l IH].
  - cbn [map length np_sum foldr]. change (inject_Z (Z.of_nat 0)) with 0. ring.
  - cbn [map length]. unfold np_sum in *. cbn [foldr]. rewrite IH.
    rewrite Nat2Z.inj_succ. unfold Z.succ. rewrite inject_Z_plus.
    change (inject_Z 1) with 1. ring.
Qed.

Lemma np_sum_squares_nonneg {A} (f : A → Q) (l : list A) :
  0 <= np_sum (map (λ a, f a * f a) l).
Proof.
  induction l as [|a l IH]; cbn; [lra|].
  unfold np_sum in IH. nra.
Qed.

Lemma zip_with_map_r {A B C} (f : A → B → C) (g : A → B) (l : list A) :
  zip_with f l (map g l) = map (λ a, f a (g a)) l.
Proof. induction l as [|a l IH]; cbn; [reflexivity | now rewrite IH]. Qed.

(** The positions [0, 1, ..., n-1] as floats. *)
Lemma positions_map (f : Q → Q) (n : nat) :
  map (λ i, f (inject_Z (Z.of_nat i))) (seq 0 n)
  = map f (map (λ i, inject_Z (Z.of_nat i)) (seq 0 n)).
Proof. now rewrite map_map. Qed.

(** X22: on an exactly linear series [a, a + b, a + 2b, ...] of n >= 2
    readings that fits in the window, [_calculate_trend] recovers the
    step: it returns b / n (the least-squares slope, which is b, divided
    by the number of readings); on fewer than two readings it returns
    0. *)
Theorem calculate_trend_of_linear_series (self : t) (a b : Q) (n : nat) :
  let series := map (λ i, a + b * inject_Z (Z.of_nat i)) (seq 0 n) in
  ((n < 2)%nat → _calculate_trend self series == 0)
  ∧ ((2 <= n)%nat → (Z.of_nat n <= window_size self)%Z →
     _calculate_trend self series == b / inject_Z (Z.of_nat n)).
Proof.
  intros series.
  assert (Hlen : length series = n)
    by (unfold series; now rewrite length_map, length_seq).
  split.
  - intros Hn. unfold _calculate_trend. rewrite Hlen.
    destruct (Z.ltb_spec (Z.of_nat n) 2); [reflexivity | lia].
  - intros Hn Hw. unfold _calculate_trend. rewrite Hlen.
    destruct (Z.ltb_spec (Z.of_nat n) 2) as [|_]; [lia|].
    rewrite Z.min_r by exact Hw.
    assert (Hslice : slice_from series (- Z.of_nat n) = series).
    { unfold slice_from. rewrite Hlen.
      destruct (Z.ltb_spec (- Z.of_nat n) 0); [|lia].
      replace (Z.of_nat n + - Z.of_nat n)%Z with 0%Z by lia. reflexivity. }
    rewrite Hslice, Hlen.
    set (x := map (λ i, inject_Z (Z.of_nat i)) (seq 0 n)).
    assert (Hx : length x = n) by (unfold x; now rewrite length_map, length_seq).
    assert (Hseries : series = map (λ xi, a + b * xi) x).
    { unfold series, x. now rewrite map_map. }
    set (N := inject_Z (Z.of_nat n)).
    assert (HN : 2 <= N).
    { unfold N. change 2 with (inject_Z 2). rewrite <- Zle_Qle. lia. }
    set (xm := mean x).
    assert (Hym : mean series == a + b * xm).
    { unfold xm, mean. rewrite Hlen, Hx. fold N.
      change (foldr Qplus 0 series) with (np_sum series).
      change (foldr Qplus 0 x) with (np_sum x).
      rewrite Hseries, np_sum_map_affine, Hx. fold N. field. lra. }
    assert (Hzip : zip_with (λ xi yi, (xi - xm) * (yi - mean series)) x series
                   = map (λ xi, (xi - xm) * (a + b * xi - mean series)) x).
    { transitivity (zip_with (λ xi yi, (xi - xm) * (yi - mean series)) x
                      (map (λ xi, a + b * xi) x)).
      - now rewrite <- Hseries.
      - apply (zip_with_map_r (λ xi yi, (xi - xm) * (yi - mean series))
                 (λ xi, a + b * xi) x). }
    rewrite Hzip.
    set (D := np_sum (map (λ xi, (xi - xm) * (xi - xm)) x)).
    assert (Hnum : np_sum (map (λ xi, (xi - xm) * (a + b * xi - mean series)) x)
                   == b * D).
    { unfold D. rewrite <- np_sum_map_scale. apply np_sum_map_ext.
      intros xi. rewrite Hym. ring. }
    assert (HD : 0 < D).
    { unfold D, x. destruct n as [|[|n']]; [lia | lia |].
      cbn [seq map np_sum foldr].
      pose proof (np_sum_squares_nonneg (λ xi, xi - xm)
                    (map (λ i, inject_Z (Z.of_nat i)) (seq 2 n'))) as Hrest.
      unfold np_sum in Hrest.
      change (inject_Z (Z.of_nat 0)) with 0.
      change (inject_Z (Z.of_nat 1)) with 1.
      set (rest := foldr Qplus 0 _) in *. clearbody rest.
      clearbody xm. nra. }
    assert (HDb : Qeq_bool D 0 = false).
    { apply not_true_iff_false. rewrite Qeq_bool_iff. lra. }
    rewrite HDb, Hnum. field. lra.
Qed.

Lemma calculate_trend_of_linear_series_witness :
  _calculate_trend (__init__ 24) [0.2; 0.25; 0.3; 0.35] == 0.05 / 4.
Proof.
  destruct (calculate_trend_of_linear_series (__init__ 24) 0.2 0.05 4)
    as [_ H].
  rewrite <- H.
  - reflexivity.
  - lia.
  - cbn. lia.
Defined.

End SeriesProperties.

(** ** The ontology *)

Section OntologyProperties.
Import Ontology.
Local Open Scope Q_scope.

Lemma dict_get_set_eq {V} (d : list (string * V)) key value :
  dict_get (dict_set d key value) key = Some value.
Proof.
  induction d as [|[k v] d IH]; cbn.
  - now rewrite String.eqb_refl.
  - destruct (String.eqb k key) eqn:E; cbn; rewrite E; [reflexivity | exact IH].
Qed.

Lemma dict_get_set_ne {V} (d : list (string * V)) key key' value :
  key ≠ key' → dict_get (dict_set d key value) key' = dict_get d key'.
Proof.
  intros Hne. induction d as [|[k v] d IH]; cbn.
  - destruct (String.eqb_spec key key'); [contradiction | reflexivity].
  - destruct (String.eqb_spec k key) as [->|Hk]; cbn.
    + destruct (String.eqb_spec key key'); [contradiction | reflexivity].
    + now rewrite IH.
Qed.

Lemma dict_keys_set_present {V} (d : list (string * V)) key value old :
  dict_get d key = Some old → dict_keys (dict_set d key value) = dict_keys d.
Proof.
  induction d as [|[k v] d IH]; cbn; [discriminate|].
  destruct (String.eqb_spec k key) as [->|Hk]; cbn; [reflexivity|].
  intros H. unfold dict_keys in IH. now rewrite IH.
Qed.

(** X23: [update_route_risk] on an identifier that is not a key of
    [routes] changes nothing and reports nothing; on a known route it
    sets the score and the level of that route alone: its other fields,
    the other routes, the order of the routes and every other attribute
    of the ontology stay as they were. *)
Theorem update_route_risk_effect (self : t) (route_id : string) (score : Q)
    (level : RiskLevel) :
  let self' := update_route_risk self route_id score level in
  (dict_get (routes self) route_id = None → self' = self)
  ∧ (∀ route, dict_get (routes self) route_id = Some route →
       ∃ route',
         dict_get (routes self') route_id = Some route'
         ∧ Route.risk_score route' = score
         ∧ Route.risk_level route' = level
         ∧ Route.route_id route' = Route.route_id route
         ∧ Route.origin_port_id route' = Route.origin_port_id route
         ∧ Route.destination_port_id route' = Route.destination_port_id route
         ∧ Route.name route' = Route.name route
         ∧ Route.distance_km route' = Route.distance_km route
         ∧ Route.typical_duration_hours route'
           = Route.typical_duration_hours route
         ∧ Route.active_shipments route' = Route.active_shipments route)
  ∧ (∀ other, other ≠ route_id →
       dict_get (routes self') other = dict_get (routes self) other)
  ∧ dict_keys (routes self') = dict_keys (routes self)
  ∧ ports self' = ports self
  ∧ port_to_routes self' = port_to_routes self
  ∧ route_to_ports self' = route_to_ports self.
Proof.
  intros self'. unfold self', update_route_risk.
  destruct (dict_get (routes self) route_id) as [route|] eqn:E.
  - split; [discriminate|]. split; [|split; [|split]].
    + intros r [= <-]. eexists. cbn [routes].
      split; [apply dict_get_set_eq|]. cbn. repeat split.
    + intros other Hne. cbn [routes]. now apply dict_get_set_ne.
    + cbn [routes]. now apply (dict_keys_set_present _ _ _ route).
    + repeat split.
  - split; [reflexivity|]. split; [discriminate|]. repeat split.
Qed.

Lemma update_route_risk_effect_witness :
  let route :=
    {| Route.route_id := "LAX-SHG"; Route.origin_port_id := "LAX";
       Route.destination_port_id := "SHG";
       Route.name := "Los Angeles - Shanghai";
       Route.distance_km := 10400; Route.typical_duration_hours := 416;
       Route.risk_score := 0; Route.risk_level := LOW;
       Route.active_shipments := 0 |} in
  let self := add_route __init__ route in
  update_route_risk self "NYC-LON" 0.9 HIGH = self
  ∧ ∃ route',
      dict_get (routes (update_route_risk self "LAX-SHG" 0.9 HIGH)) "LAX-SHG"
      = Some route'
      ∧ Route.risk_score route' = 0.9
      ∧ Route.risk_level route' = HIGH.
Proof.
  intros route self.
  destruct (update_route_risk_effect self "NYC-LON" 0.9 HIGH) as [Hnone _].
  destruct (update_route_risk_effect self "LAX-SHG" 0.9 HIGH)
    as (_ & Hsome & _).
  split; [apply Hnone; reflexivity|].
  destruct (Hsome route eq_refl) as (route' & Hget & Hs & Hl & _).
  exists route'. auto.
Defined.

Lemma index_add_lookup (index : gmap string (gset string)) key member key' :
  default ∅ (index_add index key member !! key')
  = if decide (key = key')
    then default ∅ (index !! key') ∪ {[member]}
    else default ∅ (index !! key').
Proof.
  unfold index_add. destruct (decide (key = key')) as [->|Hne].
  - now rewrite lookup_insert_eq.
  - now rewrite lookup_insert_ne.
Qed.

Lemma index_add_grows (index : gmap string (gset string)) key member key' :
  default ∅ (index !! key') ⊆ default ∅ (index_add index key member !! key').
Proof. rewrite index_add_lookup. case_decide; set_solver. Qed.

Lemma index_add_member (index : gmap string (gset string)) key member :
  member ∈ default ∅ (index_add index key member !! key).
Proof. rewrite index_add_lookup. rewrite decide_True by done. set_solver. Qed.

(** X24: after [add_route], the route is stored under its identifier
    and is among the routes that [get_routes_by_port] returns for its
    origin and for its destination; [route_to_ports] maps it to exactly
    these two ports; the other routes are kept, and no port loses a
    route identifier. *)
Theorem add_route_round_trip (self : t) (route : Route.t) :
  let self' := add_route self route in
  dict_get (routes self') (Route.route_id route) = Some route
  ∧ route ∈ get_routes_by_port self' (Route.origin_port_id route)
  ∧ route ∈ get_routes_by_port self' (Route.destination_port_id route)
  ∧ route_to_ports self' !! Route.route_id route
    = Some {[Route.origin_port_id route; Route.destination_port_id route]}
  ∧ (∀ other, other ≠ Route.route_id route →
       dict_get (routes self') other = dict_get (routes self) other)
  ∧ (∀ port_id,
       default ∅ (port_to_routes self !! port_id)
       ⊆ default ∅ (port_to_routes self' !! port_id)).
Proof.
  intros self'.
  assert (Hget : dict_get (routes self') (Route.route_id route) = Some route)
    by apply dict_get_set_eq.
  split; [exact Hget|]. split; [|split; [|split; [|split]]].
  - unfold get_routes_by_port. apply list_elem_of_omap.
    exists (Route.route_id route). split; [|exact Hget].
    apply elem_of_elements. unfold self', add_route; cbn [port_to_routes].
    apply index_add_grows, index_add_member.
  - unfold get_routes_by_port. apply list_elem_of_omap.
    exists (Route.route_id route). split; [|exact Hget].
    apply elem_of_elements. unfold self', add_route; cbn [port_to_routes].
    apply index_add_member.
  - unfold self', add_route; cbn [route_to_ports]. apply lookup_insert_eq.
  - intros other Hne. unfold self', add_route; cbn [routes].
    apply dict_get_set_ne. congruence.
  - intros port_id. unfold self', add_route; cbn [port_to_routes].
    etransitivity; apply index_add_grows.
Qed.

Local Arguments Ranking.risk_ge _ _ /.

Lemma insert_by_risk_perm route sorted :
  insert_by_risk route sorted ≡ₚ route :: sorted.
Proof.
  induction sorted as [|r rest IH]; cbn; [reflexivity|].
  destruct (Qgt_bool _ _); [|reflexivity].
  rewrite IH. apply Permutation_swap.
Qed.

Lemma sorted_by_risk_perm all_routes : sorted_by_risk all_routes ≡ₚ all_routes.
Proof.
  induction all_routes as [|r rest IH]; cbn; [reflexivity|].
  now rewrite insert_by_risk_perm, IH.
Qed.

Lemma insert_by_risk_sorted route sorted :
  StronglySorted Ranking.risk_ge sorted →
  StronglySorted Ranking.risk_ge (insert_by_risk route sorted).
Proof.
  induction 1 as [|r rest Hs IH Hall]; cbn.
  - repeat constructor.
  - destruct (Qgt_bool _ _) eqn:E.
    + apply Qgt_bool_true in E. constructor; [exact IH|].
      apply Forall_forall. intros x Hx.
      rewrite insert_by_risk_perm in Hx. apply elem_of_cons in Hx as [->|Hx].
      * cbn. now apply Qlt_le_weak.
      * rewrite Forall_forall in Hall. now apply Hall.
    + apply Qgt_bool_false in E. constructor; [now constructor|].
      constructor; [exact E|].
      eapply Forall_impl; [exact Hall|]. cbn. intros x Hx. lra.
Qed.

Lemma sorted_by_risk_sorted all_routes :
  StronglySorted Ranking.risk_ge (sorted_by_risk all_routes).
Proof.
  induction all_routes as [|r rest IH]; cbn; [constructor|].
  now apply insert_by_risk_sorted.
Qed.

(** X25: [get_top_risk_routes] returns routes of the ontology in
    descending order of risk score; every route it leaves out has a
    score no higher than any route it returns; with a limit >= 0 it
    returns min(limit, n) routes, and a negative limit, as a Python
    slice, leaves out the |limit| routes of lowest score. *)
Theorem get_top_risk_routes_sorted (self : t) (limit : Z) :
  let top := get_top_risk_routes self limit in
  let n := length (routes self) in
  ∃ rest,
    top ++ rest ≡ₚ dict_values (routes self)
    ∧ StronglySorted Ranking.risk_ge top
    ∧ (∀ a b, a ∈ top → b ∈ rest →
         Route.risk_score b <= Route.risk_score a)
    ∧ ((0 <= limit)%Z → length top = Nat.min (Z.to_nat limit) n)
    ∧ ((limit < 0)%Z → length top = (n - Z.to_nat (- limit))%nat).
Proof.
  intros top n. unfold top, get_top_risk_routes, slice_to.
  set (sorted := sorted_by_risk (dict_values (routes self))).
  assert (Hlen : length sorted = n).
  { unfold sorted, n, dict_values.
    rewrite (Permutation_length (sorted_by_risk_perm _)).
    apply length_map. }
  rewrite Hlen.
  set (k := Z.to_nat (if (limit <? 0)%Z then Z.max 0 (Z.of_nat n + limit)
                      else Z.min limit (Z.of_nat n))).
  exists (drop k sorted).
  assert (Hsorted : StronglySorted Ranking.risk_ge (take k sorted ++ drop k sorted)).
  { rewrite take_drop. apply sorted_by_risk_sorted. }
  split; [rewrite take_drop; apply sorted_by_risk_perm|].
  split; [now apply StronglySorted_app_1_l in Hsorted|].
  split.
  - intros a b Ha Hb. exact (StronglySorted_app_1_elem_of _ _ _ a b Hsorted Ha Hb).
  - rewrite length_take, Hlen. unfold k.
    split; intros Hl; destruct (Z.ltb_spec limit 0); lia.
Qed.

Lemma get_top_risk_routes_sorted_witness :
  let route (id : string) (score : Q) :=
    {| Route.route_id := id; Route.origin_port_id := "LAX";
       Route.destination_port_id := "SHG"; Route.name := id;
       Route.distance_km := 0; Route.typical_duration_hours := 0;
       Route.risk_score := score; Route.risk_level := LOW;
       Route.active_shipments := 0 |} in
  let self :=
    add_route (add_route (add_route __init__ (route "a" 0.2))
                 (route "b" 0.9)) (route "c" 0.5) in
  get_top_risk_routes self 2 = [route "b" 0.9; route "c" 0.5]
  ∧ length (get_top_risk_routes self 2) = Nat.min (Z.to_nat 2) 3
  ∧ length (get_top_risk_routes self (-1)) = (3 - Z.to_nat (- -1))%nat.
Proof.
  intros route self.
  destruct (get_top_risk_routes_sorted self 2) as (_ & _ & _ & _ & Hpos & _).
  destruct (get_top_risk_routes_sorted self (-1))
    as (_ & _ & _ & _ & _ & Hneg).
  split; [reflexivity|]. split; [apply Hpos; lia | apply Hneg; lia].
Defined.

End OntologyProperties.

(** ** The weather pipeline *)

Section WeatherProperties.
Import WeatherPipeline.
Local Open Scope Z_scope.

Lemma severity_levels_range (severity : string) (level : Z) :
  severity_levels !! severity = Some level → 1 <= level <= 4.
Proof.
  assert (HF : map_Forall (λ _ l, 1 <= l <= 4) severity_levels).
  { unfold severity_levels.
    repeat (apply map_Forall_insert_2; [lia|]). apply map_Forall_empty. }
  intros H. exact (HF _ _ H).
Qed.

Lemma threshold_level_range (threshold : string) :
  1 <= default 2 (severity_levels !! threshold) <= 4.
Proof.
  destruct (severity_levels !! threshold) as [l|] eqn:E; cbn; [|lia].
  exact (severity_levels_range _ _ E).
Qed.

(** The loop of [get_active_alerts], when it returns. *)
Lemma active_alerts_spec now level all_alerts active :
  active_alerts now level all_alerts = Ok active →
  active `sublist_of` all_alerts
  ∧ ∀ alert, alert ∈ active ↔
      alert ∈ all_alerts
      ∧ level <= AlertLevel.level alert
      ∧ ∃ alert_time,
          Alert.timestamp alert = Some alert_time
          ∧ now - alert_time
            < timedelta_of_hours (default 24%Q (Alert.duration_hours alert)).
Proof.
  revert active. induction all_alerts as [|a rest IH]; intros active H.
  - injection H as <-. split; [constructor|].
    intros alert. split; [intros Hin; inversion Hin|].
    intros [Hin _]. inversion Hin.
  - cbn in H. destruct (Alert.severity a) as [sev|] eqn:Hsev; [|discriminate].
    cbn in H.
    assert (Hlevel : AlertLevel.level a = default 0 (severity_levels !! sev))
      by (unfold AlertLevel.level; now rewrite Hsev).
    destruct (Z.geb_spec (default 0 (severity_levels !! sev)) level) as [Hge|Hlt].
    + destruct (Alert.timestamp a) as [ts|] eqn:Hts; [|discriminate].
      cbn in H.
      destruct (active_alerts now level rest) as [active'|e]; [|discriminate].
      cbn in H. injection H as <-.
      destruct (IH active' eq_refl) as [Hsub Hiff].
      destruct (Z.ltb_spec (now - ts)
                  (timedelta_of_hours (default 24%Q (Alert.duration_hours a))))
        as [Hact|Hexp].
      * split; [now constructor|]. intros alert.
        rewrite !elem_of_cons, Hiff. split.
        -- intros [-> | (Hin & Hl & Ht)].
           ++ split; [now left|]. split; [lia|]. eauto.
           ++ split; [now right|]. eauto.
        -- intros ([-> | Hin] & Hl & Ht); [now left | right; eauto].
      * split; [now constructor|]. intros alert.
        rewrite elem_of_cons, Hiff. split.
        -- intros (Hin & Hl & Ht). split; [now right|]. eauto.
        -- intros ([-> | Hin] & Hl & (ts' & Hts' & Ht)); [|eauto].
           rewrite Hts in Hts'. injection Hts' as <-. lia.
    + destruct (IH active H) as [Hsub Hiff].
      split; [now constructor|]. intros alert.
      rewrite elem_of_cons, Hiff. split.
      * intros (Hin & Hl & Ht). split; [now right|]. eauto.
      * intros ([-> | Hin] & Hl & Ht); [lia | eauto].
Qed.

(** X26: when [get_active_alerts] returns, its result is, in order,
    exactly those ingested alerts whose severity level reaches the
    threshold level and whose age is below their duration (24 hours
    when the alert has none); the threshold level is between 1 and 4, so
    an alert of severity 'none' or of an unknown severity is never
    active; and a threshold outside 'light', 'moderate', 'severe',
    'extreme' (such as 'none') acts as 'moderate'. *)
Theorem get_active_alerts_filter (self : t) (fs : files) (now : Z)
    (generate : string → Alert.t) (threshold : string) :
  let threshold_level := default 2 (severity_levels !! threshold) in
  1 <= threshold_level <= 4
  ∧ (severity_levels !! threshold = None →
     get_active_alerts self fs now generate threshold
     = get_active_alerts self fs now generate "moderate")
  ∧ ∀ active fs',
      get_active_alerts self fs now generate threshold = (Ok active, fs') →
      ∃ all_alerts,
        ingest_weather_alerts self fs now generate None false
        = (Ok all_alerts, fs')
        ∧ active `sublist_of` all_alerts
        ∧ ∀ alert, alert ∈ active ↔
            alert ∈ all_alerts
            ∧ threshold_level <= AlertLevel.level alert
            ∧ ∃ alert_time,
                Alert.timestamp alert = Some alert_time
                ∧ now - alert_time
                  < timedelta_of_hours
                      (default 24%Q (Alert.duration_hours alert)).
Proof.
  intros threshold_level. split; [apply threshold_level_range|]. split.
  - intros Hnone. unfold get_active_alerts. now rewrite Hnone.
  - intros active fs' H. unfold get_active_alerts in H.
    fold threshold_level in H.
    destruct (ingest_weather_alerts self fs now generate None false)
      as [[all_alerts|e] fs''] eqn:E; [|discriminate].
    injection H as H <-. exists all_alerts. split; [reflexivity|].
    now apply active_alerts_spec.
Qed.

(** The selection of [get_weather_for_port]. *)
Lemma max_by_severity_spec best rest chosen :
  max_by_severity best (AlertLevel.level best) rest = Ok chosen →
  chosen ∈ best :: rest
  ∧ ∀ alert, alert ∈ best :: rest →
      AlertLevel.level alert <= AlertLevel.level chosen.
Proof.
  revert best. induction rest as [|a rest IH]; intros best H.
  - injection H as <-. split; [left|].
    intros alert Hin. apply list_elem_of_singleton in Hin as ->. lia.
  - cbn in H. destruct (Alert.severity a) as [sev|] eqn:Hsev; [|discriminate].
    cbn in H.
    assert (Hlevel : AlertLevel.level a = default 0 (severity_levels !! sev))
      by (unfold AlertLevel.level; now rewrite Hsev).
    rewrite <- Hlevel in H.
    destruct (Z.gtb_spec (AlertLevel.level a) (AlertLevel.level best))
      as [Hgt|Hle].
    + destruct (IH a H) as [Hin Hmax]. split.
      * right. exact Hin.
      * intros alert Halert. apply elem_of_cons in Halert as [->|Halert].
        -- assert (Ha : a ∈ a :: rest) by left. specialize (Hmax a Ha). lia.
        -- now apply Hmax.
    + destruct (IH best H) as [Hin Hmax]. split.
      * apply elem_of_cons in Hin as [->|Hin]; [left | right; now right].
      * intros alert Halert.
        apply elem_of_cons in Halert as [->|Halert]; [apply Hmax; left|].
        apply elem_of_cons in Halert as [->|Halert].
        -- assert (Hb : best ∈ best :: rest) by left. specialize (Hmax best Hb). lia.
        -- apply Hmax. now right.
Qed.

(** X27: [get_weather_for_port] returns [None] for a port outside the
    simulator's table, without touching the files; for a known port,
    the alert it returns is one of the alerts ingested for the port's
    region, and no alert of that list has a higher severity level. *)
Theorem get_weather_for_port_most_severe (self : t) (fs : files) (now : Z)
    (generate : string → Alert.t) (port_id : string) :
  (port_id ∉ map DataSimulator.Port.id DataSimulator.ports →
   get_weather_for_port self fs now generate port_id = (Ok None, fs))
  ∧ ∀ alert fs',
      get_weather_for_port self fs now generate port_id
      = (Ok (Some alert), fs') →
      ∃ port alerts,
        port ∈ DataSimulator.ports
        ∧ DataSimulator.Port.id port = port_id
        ∧ ingest_weather_alerts self fs now generate
            (Some (DataSimulator.Port.region port)) false
          = (Ok alerts, fs')
        ∧ alert ∈ alerts
        ∧ ∀ other, other ∈ alerts →
            AlertLevel.level other <= AlertLevel.level alert.
Proof.
  split.
  - intros Hnot. unfold get_weather_for_port.
    destruct (List.find _ DataSimulator.ports) as [port|] eqn:E; [|reflexivity].
    apply find_some in E as [Hin Heq]. apply String.eqb_eq in Heq.
    exfalso. apply Hnot. rewrite <- Heq.
    apply list_elem_of_In, in_map, Hin.
  - intros alert fs' H. unfold get_weather_for_port in H.
    destruct (List.find _ DataSimulator.ports) as [port|] eqn:E;
      [|discriminate].
    apply find_some in E as [Hin Heq]. apply String.eqb_eq in Heq.
    destruct (ingest_weather_alerts self fs now generate
                (Some (DataSimulator.Port.region port)) false)
      as [[alerts|e] fs''] eqn:Hing; [|discriminate].
    injection H as H <-.
    exists port, alerts. split; [now apply list_elem_of_In|].
    split; [exact Heq|]. split; [exact Hing|].
    destruct alerts as [|a rest]; [discriminate|].
    cbn in H. destruct (Alert.severity a) as [sev|] eqn:Hsev; [|discriminate].
    cbn in H.
    assert (Hlevel : AlertLevel.level a = default 0 (severity_levels !! sev))
      by (unfold AlertLevel.level; now rewrite Hsev).
    rewrite <- Hlevel in H.
    destruct (max_by_severity a (AlertLevel.level a) rest) as [best|e] eqn:Hmax;
      [|discriminate].
    cbn in H. injection H as <-.
    now apply max_by_severity_spec.
Qed.

Lemma store_alerts_complete fs alerts :
  Forall (λ alert, is_Some (Alert.weather_zone alert)
                   ∧ is_Some (Alert.timestamp alert)) alerts →
  ∃ fs', store_alerts fs alerts = (Ok (), fs')
    ∧ cache_files fs' = cache_files fs.
Proof.
  intros HF. revert fs.
  induction HF as [|a rest [[zone Hz] [ts Ht]] _ IH]; intros fs.
  - exists fs. split; reflexivity.
  - cbn. unfold _store_alert. rewrite Hz, Ht. cbn.
    destruct (IH {| cache_files := cache_files fs;
                    alert_files := <[(zone, ts) := a]> (alert_files fs) |})
      as (fs' & Hs & Hc).
    exists fs'. split; [exact Hs | exact Hc].
Qed.

(** X28: an ingest that regenerates (forced, cache missing or expired),
    with alerts that hold their zone and timestamp, returns one alert per
    region asked for (the four weather zones, in table order, when no
    region is given) and caches the list: every unforced ingest for the
    same region within the 10 minutes that follow returns that list
    again, writes nothing and generates nothing. *)
Theorem ingest_weather_alerts_round_trip (fs : files) (now : Z)
    (generate : string → Alert.t) (region : option string)
    (force_refresh : bool) :
  check_cache __init__ fs now (cache_key region) force_refresh = None →
  Forall (λ r, is_Some (Alert.weather_zone (generate r))
               ∧ is_Some (Alert.timestamp (generate r)))
         (regions_of region) →
  let alerts := map generate (regions_of region) in
  ∃ fs',
    ingest_weather_alerts __init__ fs now generate region force_refresh
    = (Ok alerts, fs')
    ∧ (region = None → length alerts = 4%nat)
    ∧ ∀ now' generate',
        now' - now < 10 * 60 * 1000000 →
        ingest_weather_alerts __init__ fs' now' generate' region false
        = (Ok alerts, fs').
Proof.
  intros Hregen Hcomplete alerts.
  destruct (store_alerts_complete
              (_save_cache fs now (cache_key region) alerts) alerts)
    as (fs' & Hstore & Hcache).
  { unfold alerts. apply Forall_forall. intros a Ha.
    apply list_elem_of_In, in_map_iff in Ha as (r & <- & Hr).
    rewrite Forall_forall in Hcomplete.
    apply Hcomplete. now apply list_elem_of_In. }
  exists fs'. split; [|split].
  - unfold ingest_weather_alerts. rewrite Hregen. fold alerts.
    now rewrite Hstore.
  - intros ->. reflexivity.
  - intros now' generate' Hfresh. unfold ingest_weather_alerts, check_cache.
    assert (Hfile : cache_files fs' !! cache_key region
                    = Some (Stored {| AlertCache.timestamp := Some now;
                                      AlertCache.data := Some alerts |})).
    { rewrite Hcache. unfold _save_cache; cbn. apply lookup_insert_eq. }
    unfold _load_cache. rewrite Hfile.
    rewrite (bool_decide_eq_true_2 (is_Some (Some _))) by (by eexists).
    cbn.
    destruct (Z.ltb_spec (now' - now) (PortTrafficPipeline.minutes 10))
      as [_|Hge]; [reflexivity|].
    unfold PortTrafficPipeline.minutes in Hge. lia.
Qed.

End WeatherProperties.

Section WeatherWitnesses.
Import WeatherPipeline.
Local Open Scope Z_scope.

Lemma get_active_alerts_filter_witness :
  let generate (region : string) :=
    {| Alert.weather_zone := Some region; Alert.type := Some "storm";
       Alert.severity := Some (if String.eqb region "Asia" then "light"
                               else "severe");
       Alert.duration_hours := Some 12%Q;
       Alert.affected_port_id := None; Alert.affected_port_name := None;
       Alert.latitude := None; Alert.longitude := None;
       Alert.timestamp := Some 0 |} in
  let fs := {| cache_files := ∅; alert_files := ∅ |} in
  get_active_alerts __init__ fs 3600000000 generate "none"
  = get_active_alerts __init__ fs 3600000000 generate "moderate"
  ∧ ∃ active fs' all_alerts,
      get_active_alerts __init__ fs 3600000000 generate "none"
      = (Ok active, fs')
      ∧ ingest_weather_alerts __init__ fs 3600000000 generate None false
        = (Ok all_alerts, fs')
      ∧ active `sublist_of` all_alerts
      ∧ length active = 3%nat.
Proof.
  intros generate fs.
  destruct (get_active_alerts_filter __init__ fs 3600000000 generate "none")
    as (_ & Halias & Hspec).
  split; [apply Halias; reflexivity|].
  eexists _, _.
  edestruct Hspec as (all_alerts & Hing & Hsub & _); [reflexivity|].
  exists all_alerts. split; [reflexivity|]. split; [exact Hing|].
  split; [exact Hsub | reflexivity].
Defined.

Lemma get_weather_for_port_most_severe_witness :
  let generate (region : string) :=
    {| Alert.weather_zone := Some region; Alert.type := Some "typhoon";
       Alert.severity := Some "severe";
       Alert.duration_hours := Some 12%Q;
       Alert.affected_port_id := None; Alert.affected_port_name := None;
       Alert.latitude := None; Alert.longitude := None;
       Alert.timestamp := Some 0 |} in
  let fs := {| cache_files := ∅; alert_files := ∅ |} in
  get_weather_for_port __init__ fs 0 generate "ATL" = (Ok None, fs)
  ∧ ∃ fs' port alerts,
      get_weather_for_port __init__ fs 0 generate "SHG"
      = (Ok (Some (generate "Asia")), fs')
      ∧ DataSimulator.Port.id port = "SHG"
      ∧ ingest_weather_alerts __init__ fs 0 generate
          (Some (DataSimulator.Port.region port)) false
        = (Ok alerts, fs')
      ∧ generate "Asia" ∈ alerts.
Proof.
  intros generate fs.
  destruct (get_weather_for_port_most_severe __init__ fs 0 generate "ATL")
    as [Hnone _].
  destruct (get_weather_for_port_most_severe __init__ fs 0 generate "SHG")
    as [_ Hsome].
  split.
  - apply Hnone. apply (bool_decide_unpack _). vm_compute. exact I.
  - eexists.
    edestruct (Hsome (generate "Asia")) as (port & alerts & _ & Hid & Hing & Hin & _);
      [reflexivity|].
    exists port, alerts. split; [reflexivity|]. auto.
Defined.

Lemma ingest_weather_alerts_round_trip_witness :
  let generate (region : string) :=
    {| Alert.weather_zone := Some region; Alert.type := Some "typhoon";
       Alert.severity := Some "severe";
       Alert.duration_hours := Some 12%Q;
       Alert.affected_port_id := None; Alert.affected_port_name := None;
       Alert.latitude := None; Alert.longitude := None;
       Alert.timestamp := Some 0 |} in
  let fs := {| cache_files := ∅; alert_files := ∅ |} in
  ∃ fs',
    ingest_weather_alerts __init__ fs 0 generate (Some "Asia") false
    = (Ok [generate "Asia"], fs')
    ∧ ingest_weather_alerts __init__ fs' 599000000 (λ _, generate "Europe")
        (Some "Asia") false
      = (Ok [generate "Asia"], fs').
Proof.
  intros generate fs.
  destruct (ingest_weather_alerts_round_trip fs 0 generate (Some "Asia") false)
    as (fs' & Hfirst & _ & Hagain).
  - reflexivity.
  - repeat constructor; by eexists.
  - exists fs'. split; [exact Hfirst|]. apply Hagain. lia.
Defined.

End WeatherWitnesses.
